(** * OSS gateway: a shallow embedding of [main.go] and its contract

    The program is a Gin HTTP gateway in front of an Aliyun OSS bucket.
    Every handler is a short effectful script: it calls the bucket, maybe the
    clock and the random generator, and writes to the response.  The
    embedding keeps that shape: a handler is a computation in a state monad
    whose state is the outside world, the chronological list of bucket calls,
    the chronological list of response actions and the log lines;
    [log.Fatalf] ends the process and is an outcome of its own, and so is a
    Go panic.

    Embedded here: the handlers of [/isexist/:name], [/download/:object],
    [/upload], [/delete/:object] and [/list], and [generateRandomFilename].
    Left out: the start-up code of [main], the greeting route and the
    placeholder route [/invertcode/:audio]. *)

From Stdlib Require Import ZArith Ascii String.
From stdpp Require Import gmap strings list fin_maps pretty sorting.

Local Open Scope Z_scope.

(** ** Values of the Go libraries the handlers touch *)

(** [oss.ServiceError], the fields the gateway reads. *)
Record ServiceError := {
  Code : string;
  Message : string;
  RequestID : string;
  StatusCode : Z
}.

(** A non-nil Go [error], by dynamic type.  [Error()] of
    [oss.ServiceError] has a value receiver, so both the struct and a pointer
    to it are errors, and they are different dynamic types: a type assertion
    to [*oss.ServiceError] matches the pointer only.  Every error of another
    type is known by its [Error()] text alone. *)
Inductive error :=
| ServiceErrorPtr (e : ServiceError)
| errorString (msg : string)
| ServiceErrorVal (e : ServiceError).

(** A Go pair [(value, err)] of which exactly one side is meaningful. *)
Inductive result (A : Type) :=
| Ok (a : A)
| Err (err : error).
Arguments Ok {A} a.
Arguments Err {A} err.

(** [http.Header]: canonical header name to its values. *)
Abbreviation Header := (gmap string (list string)).

(** [oss.ObjectProperties] and [oss.ListObjectsResult]. *)
Record ObjectProperties := { Key : string; Size : Z }.

Record ListObjectsResult := {
  Objects : list ObjectProperties;
  IsTruncated : bool;
  NextMarker : string
}.

(** The zero value [ListObjects] hands back next to an error. *)
Definition zeroListObjectsResult : ListObjectsResult :=
  {| Objects := []; IsTruncated := false; NextMarker := "" |}.

(** [multipart.FileHeader]: the name the client sent and the bytes of the
    part. *)
Record FileHeader := { Filename : string; content : string }.

(** The part of [http.Request] the upload handler reads: the parsed
    multipart form ([Err] when the body is not a multipart form). *)
Record Request := { MultipartForm : result (gmap string (list FileHeader)) }.

Definition ErrMissingFile : error :=
  errorString "http: no such file".

(** [time.Time] as seconds and nanoseconds since the Unix epoch. *)
Record Time := { sec : Z; nsec : Z }.

Definition wrap64 (z : Z) : Z := (z + 2 ^ 63) mod 2 ^ 64 - 2 ^ 63.

Definition Unix (t : Time) : Z := sec t.
Definition UnixNano (t : Time) : Z := wrap64 (sec t * 1000000000 + nsec t).

(** JSON payloads: [gin.H] literals, listed in source order. *)
Inductive JVal :=
| JString (s : string)
| JStrings (l : list string).

Abbreviation gin_H := (list (string * JVal)).

Definition StatusOK : Z := 200.
Definition StatusInternalServerError : Z := 500.

(** ** [fmt.Sprintf] at the verbs and operand types the program uses *)

(** [%d] on an [int64]. *)
Definition Sprintf_d_int64 (z : Z) : string := pretty z.

(** [%d] on one string operand: the verb does not apply, [fmt] prints its
    bad-verb form. *)
Definition badVerb_d_string (s : string) : string :=
  "%!d(string=" +:+ s +:+ ")".

Fixpoint join_space (l : list string) : string :=
  match l with
  | [] => ""
  | [s] => s
  | s :: rest => s +:+ " " +:+ join_space rest
  end.

(** [%d] on a [[]string]: bracketed, elements separated by a space, the verb
    applied to each element. *)
Definition Sprintf_d_strings (l : list string) : string :=
  "[" +:+ join_space (badVerb_d_string <$> l) +:+ "]".

(** ** The outside world *)

(** What the program reaches through its libraries.  The stateful operations
    take the world and return the next one; the last three fields are the
    pure, platform-dependent library functions. *)
Class Env (W : Type) := {
  GetObjectMeta : string → W → result Header * W;
  GetObject : string → W → result string * W;
  PutObject : string → string → W → option error * W;
  DeleteObject : string → W → option error * W;
  ListObjects : string → W → result ListObjectsResult * W;
  Open : FileHeader → W → option error * W;
  Copy : string → W → option error * W;
  Seed : Z → W → W;
  Intn : Z → W → Z * W;
  Now : W → Time * W;
  IsPathSeparator : ascii → bool;
  TypeByExtension : string → string;
  ServiceError_Error : ServiceError → string
}.

(** ** Handler computations *)

Inductive StoreCall :=
| CallGetObjectMeta (key : string)
| CallGetObject (key : string)
| CallPutObject (key : string) (data : string)
| CallDeleteObject (key : string)
| CallListObjects (marker : string).

Inductive RespAction :=
| SetHeader (key value : string)
| WriteBody (data : string) (err : option error)
| SendJSON (code : Z) (obj : gin_H).

Inductive Outcome (A : Type) :=
| Done (a : A)
| Fatal (msg : string)
| Panic (msg : string)
| OutOfFuel.
Arguments Done {A} a.
Arguments Fatal {A} msg.
Arguments Panic {A} msg.
Arguments OutOfFuel {A}.

Record State (W : Type) := mkState {
  world : W;
  calls : list StoreCall;
  out : list RespAction;
  logs : list string
}.
Arguments mkState {W} _ _ _ _.
Arguments world {W} _.
Arguments calls {W} _.
Arguments out {W} _.
Arguments logs {W} _.

Definition M (W A : Type) : Type := State W → Outcome A * State W.

Definition ret {W A} (a : A) : M W A := λ s, (Done a, s).

Definition bind {W A B} (m : M W A) (k : A → M W B) : M W B :=
  λ s, match m s with
       | (Done a, s') => k a s'
       | (Fatal msg, s') => (Fatal msg, s')
       | (Panic msg, s') => (Panic msg, s')
       | (OutOfFuel, s') => (OutOfFuel, s')
       end.

#[global] Instance M_ret W : MRet (M W) := λ A, ret.
#[global] Instance M_bind W : MBind (M W) := λ A B k m, bind m k.

Definition start {W} (w : W) : State W := mkState w [] [] [].

Definition is_mutation (c : StoreCall) : bool :=
  match c with
  | CallPutObject _ _ | CallDeleteObject _ => true
  | _ => false
  end.

Definition is_query (c : StoreCall) : bool :=
  match c with
  | CallGetObjectMeta _ | CallListObjects _ => true
  | _ => false
  end.

(** ** The gateway *)

Section Gateway.
Context {W : Type} `{!Env W}.

(** *** Primitive steps *)

Definition log_Printf (msg : string) : M W unit :=
  λ s, (Done (), mkState (world s) (calls s) (out s) (logs s ++ [msg])).

(** [log.Fatalf] prints and then calls [os.Exit(1)]: nothing runs after
    it. *)
Definition log_Fatalf (msg : string) : M W unit :=
  λ s, (Fatal msg, mkState (world s) (calls s) (out s) (logs s ++ [msg])).

Definition panic {A} (msg : string) : M W A := λ s, (Panic msg, s).

Definition out_of_fuel {A} : M W A := λ s, (OutOfFuel, s).

Definition c_JSON (code : Z) (obj : gin_H) : M W unit :=
  λ s, (Done (),
        mkState (world s) (calls s) (out s ++ [SendJSON code obj]) (logs s)).

Definition c_Header (key value : string) : M W unit :=
  λ s, (Done (),
        mkState (world s) (calls s) (out s ++ [SetHeader key value]) (logs s)).

(** A call into the world that the trace does not record. *)
Definition ask {A} (f : W → A * W) : M W A :=
  λ s, let '(a, w) := f (world s) in
       (Done a, mkState w (calls s) (out s) (logs s)).

(** A bucket call: the same, and the call is appended to [calls]. *)
Definition bucket {A} (c : StoreCall) (f : W → A * W) : M W A :=
  λ s, let '(a, w) := f (world s) in
       (Done a, mkState w (calls s ++ [c]) (out s) (logs s)).

Definition bucket_GetObjectMeta (key : string) : M W (result Header) :=
  bucket (CallGetObjectMeta key) (GetObjectMeta key).
Definition bucket_GetObject (key : string) : M W (result string) :=
  bucket (CallGetObject key) (GetObject key).
Definition bucket_PutObject (key data : string) : M W (option error) :=
  bucket (CallPutObject key data) (PutObject key data).
Definition bucket_DeleteObject (key : string) : M W (option error) :=
  bucket (CallDeleteObject key) (DeleteObject key).
Definition bucket_ListObjects (marker : string)
  : M W (result ListObjectsResult) :=
  bucket (CallListObjects marker) (ListObjects marker).

Definition file_Open (file : FileHeader) : M W (option error) :=
  ask (Open file).

(** [io.Copy(c.Writer, body)]: the world says whether the transfer
    failed. *)
Definition io_Copy (body : string) : M W (option error) :=
  λ s, let '(e, w) := Copy body (world s) in
       (Done e,
        mkState w (calls s) (out s ++ [WriteBody body e]) (logs s)).

Definition time_Now : M W Time := ask Now.
Definition rand_Seed (seed : Z) : M W unit := ask (λ w, ((), Seed seed w)).
Definition rand_Intn (n : Z) : M W Z := ask (Intn n).

(** [err.Error()]. *)
Definition Error (err : error) : string :=
  match err with
  | ServiceErrorPtr e => ServiceError_Error e
  | errorString msg => msg
  | ServiceErrorVal e => ServiceError_Error e
  end.

(** [c.FormFile(name)]: the first file of that form field, after opening
    and closing it once. *)
Definition c_FormFile (req : Request) (name : string)
  : M W (result FileHeader) :=
  match MultipartForm req with
  | Err err => mret (Err err)
  | Ok form =>
      match form !! name with
      | Some (fh :: _) =>
          e ← file_Open fh;
          match e with
          | Some err => mret (Err err)
          | None => mret (Ok fh)
          end
      | _ => mret (Err ErrMissingFile)
      end
  end.

(** *** [filepath.Ext] *)

(** The loop of [filepath.Ext]: [i] counts down from [len(path)], the byte
    examined is [path[i-1]]. *)
Fixpoint Ext_loop (path : string) (i : nat) : string :=
  match i with
  | O => ""
  | S j =>
      match String.get j path with
      | None => ""
      | Some c =>
          if IsPathSeparator c then ""
          else if Ascii.eqb c "." then
                 String.substring j (String.length path - j) path
               else Ext_loop path j
      end
  end.

Definition Ext (path : string) : string :=
  Ext_loop path (String.length path).

(** *** [generateRandomFilename] *)

Definition charset : string :=
  "abcdefghijklmnopqrstuvwxyzABCDEFGHIJKLMNOPQRSTUVWXYZ0123456789".

(** [charset[i]], with Go's bounds check. *)
Definition charset_at (i : Z) : M W ascii :=
  if decide (0 ≤ i)%Z then
    match String.get (Z.to_nat i) charset with
    | Some c => mret c
    | None => panic "index out of range"
    end
  else panic "index out of range".

(** The [for i := 0; i < length; i++] loop, [n] iterations to go. *)
Fixpoint random_chars (n : nat) (filename : string) : M W string :=
  match n with
  | O => mret filename
  | S n' =>
      i ← rand_Intn (Z.of_nat (String.length charset));
      c ← charset_at i;
      random_chars n' (filename +:+ String c "")
  end.

Definition generateRandomFilename (ext : string) : M W string :=
  t0 ← time_Now;
  rand_Seed (UnixNano t0);;
  filename ← random_chars 10 "";
  t1 ← time_Now;
  let timestamp := Unix t1 in
  mret (Sprintf_d_int64 timestamp +:+ "_" +:+ filename +:+ ext).

(** *** [GET /isexist/:name] *)

Definition handle_isexist (name : string) : M W unit :=
  r ← bucket_GetObjectMeta name;
  match r with
  | Err err =>
      match err with
      | ServiceErrorPtr ossError =>
          if String.eqb (Code ossError) "NoSuchKey" then
            c_JSON StatusOK
              [("message",
                JString ("Object '" +:+ name +:+ "' does not exist"))]
          else
            c_JSON StatusInternalServerError
              [("message",
                JString ("Error checking object: " +:+ Message ossError))]
      | _ =>
          c_JSON StatusInternalServerError
            [("message", JString ("Error: " +:+ Error err))]
      end
  | Ok _ =>
      c_JSON StatusOK
        [("message", JString ("Object '" +:+ name +:+ "' exists"))]
  end.

(** *** [GET /download/:object] *)

(** Lines 86-90: the extension of the key, [.bin] when it has none. *)
Definition download_ext (objectName : string) : string :=
  let ext := Ext objectName in
  if String.eqb ext "" then ".bin" else ext.

Definition handle_download (objectName : string) : M W unit :=
  let ext := download_ext objectName in
  r ← bucket_GetObjectMeta objectName;
  match r with
  | Err err =>
      log_Printf ("Failed to get object metadata: " +:+ Error err);;
      c_JSON 500 [("message", JString "Failed to get object metadata")]
  | Ok meta =>
      let fileSize := default [] (meta !! "Content-Length") in
      rb ← bucket_GetObject objectName;
      match rb with
      | Err err =>
          log_Fatalf ("Failed to get object: " +:+ Error err);;
          c_JSON 500 [("message", JString "Failed to get object")];;
          panic "invalid memory address or nil pointer dereference"
      | Ok body =>
          filename ← generateRandomFilename ext;
          c_Header "Content-Disposition"
                   ("attachment; filename=" +:+ filename);;
          c_Header "Content-Type" (TypeByExtension ext);;
          c_Header "Content-Length" (Sprintf_d_strings fileSize);;
          e ← io_Copy body;
          match e with
          | Some err =>
              log_Printf ("Failed to send file to client: " +:+ Error err);;
              c_JSON 500
                [("message", JString "Failed to send file to client")]
          | None =>
              log_Printf ("File downloaded successfully: " +:+ filename);;
              c_JSON 200
                [("message", JString "File downloaded successfully");
                 ("file", JString filename)]
          end
      end
  end.

(** *** [POST /upload] *)

Definition handle_upload (req : Request) : M W unit :=
  r ← c_FormFile req "file";
  match r with
  | Err err =>
      log_Printf ("Failed to get file from form: " +:+ Error err);;
      c_JSON 400 [("message", JString "Failed to get file")]
  | Ok file =>
      let objectName := Filename file in
      e ← file_Open file;
      match e with
      | Some err =>
          log_Fatalf ("Failed to open file: " +:+ Error err);;
          c_JSON 400 [("message", JString "Failed to open file")]
      | None =>
          e ← bucket_PutObject objectName (content file);
          match e with
          | Some err =>
              log_Fatalf ("Failed to fetch URL: " +:+ Error err);;
              c_JSON 500
                [("message", JString "Failed to upload file to OSS")]
          | None =>
              log_Printf "File uploaded successfully.";;
              c_JSON 200 [("message", JString "File uploaded successfully")]
          end
      end
  end.

(** *** [DELETE /delete/:object] *)

Definition handle_delete (objectName : string) : M W unit :=
  e ← bucket_DeleteObject objectName;
  match e with
  | Some err =>
      c_JSON 500
        [("status", JString "error");
         ("message", JString ("Failed to delete object: " +:+ Error err))]
  | None =>
      c_JSON 200
        [("status", JString "success");
         ("message",
          JString ("Object '" +:+ objectName +:+ "' deleted successfully"))]
  end.

(** *** [GET /list] *)

(** The [for { ... }] loop; [fuel] bounds the number of pages fetched, and
    running out of it is the outcome [OutOfFuel]. *)
Fixpoint list_loop (fuel : nat) (allObjects : list string) (marker : string)
  : M W (list string) :=
  match fuel with
  | O => out_of_fuel
  | S fuel' =>
      r ← bucket_ListObjects marker;
      lsRes ← match r with
              | Err err =>
                  log_Fatalf ("Failed to list objects: " +:+ Error err);;
                  c_JSON 500
                    [("status", JString "error");
                     ("message",
                      JString ("Failed to list objects: " +:+ Error err))];;
                  mret zeroListObjectsResult
              | Ok lsRes => mret lsRes
              end;
      let allObjects := (allObjects ++ (Key <$> Objects lsRes))%list in
      if IsTruncated lsRes then list_loop fuel' allObjects (NextMarker lsRes)
      else mret allObjects
  end.

Definition handle_list (fuel : nat) : M W unit :=
  allObjects ← list_loop fuel [] "";
  log_Printf "All objects have been listed.";;
  c_JSON 200
    [("status", JString "success");
     ("message", JString "All objects have been listed");
     ("objects", JStrings allObjects)].

End Gateway.

(** Serving one request: the handler starts from an empty trace. *)
Definition serve {W A} (h : M W A) (w : W) : Outcome A * State W :=
  h (start w).

(** The response of a request that ran to its end. *)
Definition responded {W A} (r : Outcome A * State W) (acts : list RespAction)
  : Prop :=
  (∃ a, r.1 = Done a) ∧ out r.2 = acts.

(** The store answers the successive listing queries [ms] with the results
    [rs], going from world [w] to world [w']. *)
Inductive answers {W} `{!Env W}
  : W → list string → list (result ListObjectsResult) → W → Prop :=
| answers_nil w : answers w [] [] w
| answers_cons w m r w1 ms rs w' :
    ListObjects m w = (r, w1) →
    answers w1 ms rs w' →
    answers w (m :: ms) (r :: rs) w'.

(** The keys of a sequence of pages, page after page. *)
Definition page_keys (ps : list ListObjectsResult) : list string :=
  concat ((λ p, Key <$> Objects p) <$> ps).

(** The markers the loop sends when the store answers with the truncated
    pages [pre]: the start marker, then each page's continuation marker. *)
Definition markers (m : string) (pre : list ListObjectsResult)
  : list string :=
  m :: (NextMarker <$> pre).

Definition list_ok (keys : list string) : RespAction :=
  SendJSON 200
    [("status", JString "success");
     ("message", JString "All objects have been listed");
     ("objects", JStrings keys)].

(** What the existence check answers for each answer of the metadata query,
    by status and message: success, the two cases of an error of dynamic
    type [*oss.ServiceError], and the errors of any other dynamic type, the
    by-value [oss.ServiceError] among them. *)
Inductive isexist_answer (name : string) (detail : error → string)
  : result Header → RespAction → Prop :=
| answer_exists meta :
    isexist_answer name detail (Ok meta)
      (SendJSON 200
         [("message", JString ("Object '" +:+ name +:+ "' exists"))])
| answer_missing e :
    Code e = "NoSuchKey" →
    isexist_answer name detail (Err (ServiceErrorPtr e))
      (SendJSON 200
         [("message", JString ("Object '" +:+ name +:+ "' does not exist"))])
| answer_store_error e :
    Code e ≠ "NoSuchKey" →
    isexist_answer name detail (Err (ServiceErrorPtr e))
      (SendJSON 500
         [("message", JString ("Error checking object: " +:+ Message e))])
| answer_other_error msg :
    isexist_answer name detail (Err (errorString msg))
      (SendJSON 500
         [("message", JString ("Error: " +:+ detail (errorString msg)))])
| answer_value_error e :
    isexist_answer name detail (Err (ServiceErrorVal e))
      (SendJSON 500
         [("message", JString ("Error: " +:+ detail (ServiceErrorVal e)))]).

Definition code_of (a : RespAction) : option Z :=
  match a with
  | SendJSON code _ => Some code
  | _ => None
  end.

Definition header_of (key : string) (a : RespAction) : option string :=
  match a with
  | SetHeader k v => if String.eqb k key then Some v else None
  | _ => None
  end.

(** The value of the last [c.Header(key, _)] call among the actions. *)
Definition header_set (key : string) (acts : list RespAction)
  : option string :=
  last (omap (header_of key) acts).

(** [s] ends with [suffix]. *)
Definition has_suffix (suffix s : string) : Prop :=
  ∃ front, s = front +:+ suffix.

Definition in_charset (cs : string) (c : ascii) : Prop :=
  c ∈ String.list_ascii_of_string cs.

(** ** Two concrete worlds *)

(** ASCII lower-casing, as [mime.TypeByExtension] does before its second
    lookup. *)
Definition ascii_lower (c : ascii) : ascii :=
  let n := nat_of_ascii c in
  if bool_decide (65 ≤ n ≤ 90)%nat then ascii_of_nat (n + 32) else c.

Fixpoint string_lower (s : string) : string :=
  match s with
  | EmptyString => EmptyString
  | String c rest => String (ascii_lower c) (string_lower rest)
  end.

(** The extensions Go's [mime] package knows without a system MIME
    database. *)
Definition builtinTypesLower : list (string * string) :=
  [(".avif", "image/avif");
   (".css", "text/css; charset=utf-8");
   (".gif", "image/gif");
   (".htm", "text/html; charset=utf-8");
   (".html", "text/html; charset=utf-8");
   (".jpeg", "image/jpeg");
   (".jpg", "image/jpeg");
   (".js", "text/javascript; charset=utf-8");
   (".json", "application/json");
   (".mjs", "text/javascript; charset=utf-8");
   (".pdf", "application/pdf");
   (".png", "image/png");
   (".svg", "image/svg+xml");
   (".wasm", "application/wasm");
   (".webp", "image/webp");
   (".xml", "text/xml; charset=utf-8")].

(** [mime.TypeByExtension] over a table: exact lookup, then lower-cased
    lookup, then the empty string. *)
Definition table_TypeByExtension (table : list (string * string))
    (ext : string) : string :=
  let m : gmap string string := list_to_map table in
  match m !! ext with
  | Some t => t
  | None => default "" (m !! string_lower ext)
  end.

Definition unix_IsPathSeparator (c : ascii) : bool := Ascii.eqb c "/".

Definition plain_ServiceError_Error (e : ServiceError) : string :=
  "oss: service returned error: StatusCode=" +:+ pretty (StatusCode e)
  +:+ ", ErrorCode=" +:+ Code e +:+ ", ErrorMessage=" +:+ Message e
  +:+ ", RequestId=" +:+ RequestID e.

Definition pop {A} (d : A) (l : list A) : A * list A :=
  match l with
  | [] => (d, [])
  | a :: rest => (a, rest)
  end.

(** *** An in-memory bucket *)

Module Mem.

Record World := {
  objects : gmap string string;
  page_size : nat;
  clock : Z;
  rng : Z
}.

(** The store's answer for a key it does not hold, as the SDK hands it
    over: an [oss.ServiceError] by value. *)
Definition NoSuchKey : error :=
  ServiceErrorVal
    {| Code := "NoSuchKey";
       Message := "The specified key does not exist.";
       RequestID := "";
       StatusCode := 404 |}.

Definition with_objects (o : gmap string string) (w : World) : World :=
  {| objects := o; page_size := page_size w;
     clock := clock w; rng := rng w |}.

Definition byte_length (s : string) : Z := Z.of_nat (String.length s).

Definition sorted_keys (o : gmap string string) : list string :=
  merge_sort String.le (elements (dom o)).

Definition list_page (marker : string) (w : World) : ListObjectsResult :=
  let after :=
    filter (λ k, String.ltb marker k = true) (sorted_keys (objects w)) in
  let page := take (page_size w) after in
  let more := bool_decide (page_size w < length after)%nat in
  {| Objects :=
       (λ k, {| Key := k;
                Size := byte_length (default "" (objects w !! k)) |})
         <$> page;
     IsTruncated := more;
     NextMarker := if more then default "" (last page) else "" |}.

(** Modelled from the spec: the object store is an external service; this
    is the bucket-scoped key-value blob store the spec describes, with a
    structured not-found error, overwrite on put, unconditional delete and
    marker-paginated listing in key order. *)
#[global] Instance env : Env World := {
  GetObjectMeta k w :=
    (match objects w !! k with
     | Some v => Ok {[ "Content-Length" := [pretty (byte_length v)] ]}
     | None => Err NoSuchKey
     end, w);
  GetObject k w :=
    (match objects w !! k with
     | Some v => Ok v
     | None => Err NoSuchKey
     end, w);
  PutObject k v w := (None, with_objects (<[k := v]> (objects w)) w);
  DeleteObject k w := (None, with_objects (delete k (objects w)) w);
  ListObjects marker w := (Ok (list_page marker w), w);
  Open _ w := (None, w);
  Copy _ w := (None, w);
  Seed z w :=
    {| objects := objects w; page_size := page_size w;
       clock := clock w; rng := z |};
  Intn n w :=
    (rng w mod n,
     {| objects := objects w; page_size := page_size w; clock := clock w;
        rng := (rng w * 6364136223846793005 + 1442695040888963407)
               mod 2 ^ 63 |});
  Now w :=
    ({| sec := clock w; nsec := 0 |},
     {| objects := objects w; page_size := page_size w;
        clock := clock w + 1; rng := rng w |});
  IsPathSeparator := unix_IsPathSeparator;
  TypeByExtension := table_TypeByExtension builtinTypesLower;
  ServiceError_Error := plain_ServiceError_Error
}.

Definition empty : World :=
  {| objects := ∅; page_size := 2; clock := 1700000000; rng := 42 |}.

End Mem.

(** *** A scripted world *)

(** Every operation answers with the next entry of its own list, whatever it
    is asked: the world in which any sequence of successes and failures can
    be played. *)
Module Script.

Record World := {
  metas : list (result Header);
  gets : list (result string);
  puts : list (option error);
  dels : list (option error);
  pages : list (result ListObjectsResult);
  opens : list (option error);
  copies : list (option error);
  rands : list Z;
  times : list Time
}.

Definition EOF : error := errorString "unexpected EOF".

#[global] Instance env : Env World := {
  GetObjectMeta _ w :=
    let '(r, l) := pop (Err EOF) (metas w) in
    (r, {| metas := l; gets := gets w; puts := puts w; dels := dels w;
           pages := pages w; opens := opens w; copies := copies w;
           rands := rands w; times := times w |});
  GetObject _ w :=
    let '(r, l) := pop (Err EOF) (gets w) in
    (r, {| metas := metas w; gets := l; puts := puts w; dels := dels w;
           pages := pages w; opens := opens w; copies := copies w;
           rands := rands w; times := times w |});
  PutObject _ _ w :=
    let '(r, l) := pop None (puts w) in
    (r, {| metas := metas w; gets := gets w; puts := l; dels := dels w;
           pages := pages w; opens := opens w; copies := copies w;
           rands := rands w; times := times w |});
  DeleteObject _ w :=
    let '(r, l) := pop None (dels w) in
    (r, {| metas := metas w; gets := gets w; puts := puts w; dels := l;
           pages := pages w; opens := opens w; copies := copies w;
           rands := rands w; times := times w |});
  ListObjects _ w :=
    let '(r, l) := pop (Ok zeroListObjectsResult) (pages w) in
    (r, {| metas := metas w; gets := gets w; puts := puts w; dels := dels w;
           pages := l; opens := opens w; copies := copies w;
           rands := rands w; times := times w |});
  Open _ w :=
    let '(r, l) := pop None (opens w) in
    (r, {| metas := metas w; gets := gets w; puts := puts w; dels := dels w;
           pages := pages w; opens := l; copies := copies w;
           rands := rands w; times := times w |});
  Copy _ w :=
    let '(r, l) := pop None (copies w) in
    (r, {| metas := metas w; gets := gets w; puts := puts w; dels := dels w;
           pages := pages w; opens := opens w; copies := l;
           rands := rands w; times := times w |});
  Seed _ w := w;
  Intn n w :=
    let '(r, l) := pop 0 (rands w) in
    (r mod n,
     {| metas := metas w; gets := gets w; puts := puts w; dels := dels w;
        pages := pages w; opens := opens w; copies := copies w;
        rands := l; times := times w |});
  Now w :=
    let '(r, l) := pop {| sec := 0; nsec := 0 |} (times w) in
    (r, {| metas := metas w; gets := gets w; puts := puts w; dels := dels w;
           pages := pages w; opens := opens w; copies := copies w;
           rands := rands w; times := l |});
  IsPathSeparator := unix_IsPathSeparator;
  TypeByExtension := table_TypeByExtension builtinTypesLower;
  ServiceError_Error := plain_ServiceError_Error
}.

Definition idle : World :=
  {| metas := []; gets := []; puts := []; dels := []; pages := [];
     opens := []; copies := []; rands := []; times := [] |}.

End Script.


(** ** Vocabulary of the statements *)

(** The request carries a multipart form without a file under [name]. *)
Definition lacks_field (req : Request) (name : string) : Prop :=
  ∃ form, MultipartForm req = Ok form ∧ default [] (form !! name) = [].

(** The first file the form holds under [name]. *)
Definition first_file (req : Request) (name : string) : option FileHeader :=
  match MultipartForm req with
  | Ok form => head (default [] (form !! name))
  | Err _ => None
  end.

Definition is_alnum (c : ascii) : bool :=
  let n := nat_of_ascii c in
  bool_decide (48 ≤ n ≤ 57)%nat || bool_decide (65 ≤ n ≤ 90)%nat
  || bool_decide (97 ≤ n ≤ 122)%nat.

(** The JSON error responses written after the four [log.Fatalf] calls. *)
Definition after_fatal (a : RespAction) : Prop :=
  a = SendJSON 400 [("message", JString "Failed to open file")]
  ∨ a = SendJSON 500 [("message", JString "Failed to upload file to OSS")]
  ∨ a = SendJSON 500 [("message", JString "Failed to get object")]
  ∨ ∃ detail,
      a = SendJSON 500
            [("status", JString "error");
             ("message", JString ("Failed to list objects: " +:+ detail))].

(** The success responses of upload and delete. *)
Definition upload_ok : RespAction :=
  SendJSON 200 [("message", JString "File uploaded successfully")].

Definition delete_ok (objectName : string) : RespAction :=
  SendJSON 200
    [("status", JString "success");
     ("message",
      JString ("Object '" +:+ objectName +:+ "' deleted successfully"))].

Definition says_exists (name : string) : RespAction :=
  SendJSON 200 [("message", JString ("Object '" +:+ name +:+ "' exists"))].

Definition says_missing (name : string) : RespAction :=
  SendJSON 200
    [("message", JString ("Object '" +:+ name +:+ "' does not exist"))].

(** The four failures after which the source calls [log.Fatalf]: the
    handler, the world it starts in, the fatal message, and the world and
    bucket calls at that point. *)
Inductive fatal_case {W} `{!Env W}
  : M W unit → W → string → W → list StoreCall → Prop :=
| fatal_open req fh w w1 w2 err :
    first_file req "file" = Some fh →
    Open fh w = (None, w1) →
    Open fh w1 = (Some err, w2) →
    fatal_case (handle_upload req) w
      ("Failed to open file: " +:+ Error err) w2 []
| fatal_put req fh w w1 w2 w3 err :
    first_file req "file" = Some fh →
    Open fh w = (None, w1) →
    Open fh w1 = (None, w2) →
    PutObject (Filename fh) (content fh) w2 = (Some err, w3) →
    fatal_case (handle_upload req) w
      ("Failed to fetch URL: " +:+ Error err) w3
      [CallPutObject (Filename fh) (content fh)]
| fatal_get objectName meta w w1 w2 err :
    GetObjectMeta objectName w = (Ok meta, w1) →
    GetObject objectName w1 = (Err err, w2) →
    fatal_case (handle_download objectName) w
      ("Failed to get object: " +:+ Error err) w2
      [CallGetObjectMeta objectName; CallGetObject objectName]
| fatal_list pre fuel w w' err :
    Forall (λ p, IsTruncated p = true) pre →
    answers w (markers "" pre) ((Ok <$> pre) ++ [Err err]) w' →
    (length pre < fuel)%nat →
    fatal_case (handle_list fuel) w
      ("Failed to list objects: " +:+ Error err) w'
      (CallListObjects <$> markers "" pre).

(** ** Sample inputs *)

Module Sample.

Definition form_with (f data : string) : Request :=
  {| MultipartForm :=
       Ok {[ "file" := [ {| Filename := f; content := data |} ] ]} |}.

Definition form_without_file : Request :=
  {| MultipartForm := Ok ∅ |}.

Definition bucket_with (k v : string) : Mem.World :=
  Mem.with_objects {[ k := v ]} Mem.empty.

Definition page (keys : list string) (more : bool) (next : string)
  : ListObjectsResult :=
  {| Objects := (λ k, {| Key := k; Size := 0 |}) <$> keys;
     IsTruncated := more;
     NextMarker := next |}.

Definition timeout : error := errorString "i/o timeout".

End Sample.

Module Scenario.
Import Sample.

(** Two listing pages: a truncated one, then the last. *)
Definition first_page : ListObjectsResult := page ["a"; "b"] true "b".
Definition last_page : ListObjectsResult := page ["c"] false "".

Definition two_pages : Script.World :=
  {| Script.metas := []; Script.gets := []; Script.puts := [];
     Script.dels := [];
     Script.pages := [Ok first_page; Ok last_page];
     Script.opens := []; Script.copies := []; Script.rands := [];
     Script.times := [] |}.

(** A truncated page, then a failure. *)
Definition page_then_timeout : Script.World :=
  {| Script.metas := []; Script.gets := []; Script.puts := [];
     Script.dels := [];
     Script.pages := [Ok first_page; Err timeout];
     Script.opens := []; Script.copies := []; Script.rands := [];
     Script.times := [] |}.

(** The file opens once, for [c.FormFile], and not a second time. *)
Definition second_open_fails : Script.World :=
  {| Script.metas := []; Script.gets := []; Script.puts := [];
     Script.dels := []; Script.pages := [];
     Script.opens := [None; Some timeout];
     Script.copies := []; Script.rands := []; Script.times := [] |}.

Definition put_fails : Script.World :=
  {| Script.metas := []; Script.gets := [];
     Script.puts := [Some timeout];
     Script.dels := []; Script.pages := []; Script.opens := [];
     Script.copies := []; Script.rands := []; Script.times := [] |}.

(** The metadata query succeeds, the content fetch fails. *)
Definition get_fails : Script.World :=
  {| Script.metas := [Ok {[ "Content-Length" := ["5"] ]}];
     Script.gets := [Err timeout];
     Script.puts := []; Script.dels := []; Script.pages := [];
     Script.opens := []; Script.copies := []; Script.rands := [];
     Script.times := [] |}.

End Scenario.

(** ** The remaining routes *)

Section OtherRoutes.
Context {W : Type} `{!Env W}.

(** How [encoding/json] renders the stream handle that [GetObject] returns;
    the handle's type belongs to the SDK. *)
Variable encode_reader : string → JVal.

(** *** [GET /] *)

Definition handle_root : M W unit :=
  c_JSON 200 [("message", JString "Hello, Gin!")].

(** *** [GET /invertcode/:audio] *)

Definition handle_invertcode (audio : string) : M W unit :=
  r ← bucket_GetObject audio;
  match r with
  | Err err =>
      log_Printf ("Error getting object: " +:+ Error err);;
      c_JSON 500
        [("status", JString "error");
         ("message", JString "Failed to get object")]
  | Ok object =>
      c_JSON 200
        [("message", JString "invertcode success");
         ("file", encode_reader object)]
  end.

End OtherRoutes.

(** ** [createEnvFileIfNotExist] *)

(** An error of package [os]: its [Error()] text, and what [os.IsNotExist]
    says of it. *)
Record os_error := { os_text : string; os_not_exist : bool }.

(** The file system as the start-up code reaches it: [os.Stat] and
    [os.WriteFile]. *)
Class FileSystem (F : Type) := {
  Stat : string → F → option os_error * F;
  WriteFile : string → string → Z → F → option os_error * F
}.

(** The host of the process: its file system and what it printed on
    standard output. *)
Record Host (F : Type) := mkHost { fs : F; stdout : list string }.
Arguments mkHost {F} _ _.
Arguments fs {F} _.
Arguments stdout {F} _.

Definition newline : string := String "010" "".

(** The template, line by line as in the raw string literal. *)
Definition envContent : string :=
  "OSS_ENDPOINT=oss-cn-hangzhou.aliyuncs.com" +:+ newline
  +:+ "OSS_ACCESS_KEY_ID=your-access-key-id" +:+ newline
  +:+ "OSS_ACCESS_KEY_SECRET=your-access-key-secret" +:+ newline
  +:+ "OSS_BUCKET_NAME=your-bucket-name".

Section Startup.
Context {F : Type} `{!FileSystem F}.

Definition os_Stat (name : string) : M (Host F) (option os_error) :=
  λ s, let '(e, f) := Stat name (fs (world s)) in
       (Done e,
        mkState (mkHost f (stdout (world s))) (calls s) (out s) (logs s)).

Definition os_WriteFile (name data : string) (perm : Z)
  : M (Host F) (option os_error) :=
  λ s, let '(e, f) := WriteFile name data perm (fs (world s)) in
       (Done e,
        mkState (mkHost f (stdout (world s))) (calls s) (out s) (logs s)).

Definition fmt_Println (line : string) : M (Host F) unit :=
  λ s, (Done (),
        mkState (mkHost (fs (world s)) (stdout (world s) ++ [line]))
          (calls s) (out s) (logs s)).

(** [os.IsNotExist(err)] on a possibly nil error. *)
Definition os_IsNotExist (e : option os_error) : bool :=
  match e with
  | Some err => os_not_exist err
  | None => false
  end.

Definition createEnvFileIfNotExist : M (Host F) unit :=
  e ← os_Stat ".env";
  if os_IsNotExist e then
    e ← os_WriteFile ".env" envContent 420;
    match e with
    | Some err =>
        log_Fatalf ("Failed to create .env file: " +:+ os_text err)
    | None => fmt_Println ".env file created with default values."
    end
  else fmt_Println ".env file already exists.".

End Startup.

(** ** More vocabulary *)

(** The bytes of an [io.Copy] among the response actions. *)
Definition body_of (a : RespAction) : option string :=
  match a with
  | WriteBody data _ => Some data
  | _ => None
  end.

Definition metadata_failure : RespAction :=
  SendJSON 500 [("message", JString "Failed to get object metadata")].

(** The file name of a download, from its three parts. *)
Definition filename_of (t : Z) (r ext : string) : string :=
  Sprintf_d_int64 t +:+ "_" +:+ r +:+ ext.

(** The characters [%d] can print for an [int64]. *)
Definition is_decimal_char (c : ascii) : bool :=
  let n := nat_of_ascii c in
  bool_decide (48 ≤ n ≤ 57)%nat || bool_decide (n = 45)%nat.

(** Why [c.FormFile] refuses a request that does have a form: the body was
    not a multipart form, or the first file under the field cannot be
    opened. *)
Inductive form_file_refused {W} `{!Env W}
  : Request → string → W → error → W → Prop :=
| refused_not_multipart req name w err :
    MultipartForm req = Err err →
    form_file_refused req name w err w
| refused_unreadable req name w fh err w1 :
    first_file req name = Some fh →
    Open fh w = (Some err, w1) →
    form_file_refused req name w err w1.

(** *** A bucket whose listing never ends *)

(** Every listing query is answered by one more truncated page. *)
Module Endless.

Definition World : Type := nat.

Definition next_page (n : nat) : ListObjectsResult :=
  {| Objects := [ {| Key := pretty n; Size := 0 |} ];
     IsTruncated := true;
     NextMarker := pretty n |}.

Definition env : Env World := {|
  GetObjectMeta := λ _ w, (Err Mem.NoSuchKey, w);
  GetObject := λ _ w, (Err Mem.NoSuchKey, w);
  PutObject := λ _ _ w, (None, w);
  DeleteObject := λ _ w, (None, w);
  ListObjects := λ _ w, (Ok (next_page w), S w);
  Open := λ _ w, (None, w);
  Copy := λ _ w, (None, w);
  Seed := λ _ w, w;
  Intn := λ _ w, (0, w);
  Now := λ w, ({| sec := 0; nsec := 0 |}, w);
  IsPathSeparator := unix_IsPathSeparator;
  TypeByExtension := table_TypeByExtension builtinTypesLower;
  ServiceError_Error := plain_ServiceError_Error
|}.

End Endless.

(** *** A file system in memory *)

Module MemFS.

Record World := {
  files : gmap string string;
  read_only : bool
}.

Definition ENOENT : os_error :=
  {| os_text := "stat .env: no such file or directory";
     os_not_exist := true |}.
Definition EROFS : os_error :=
  {| os_text := "open .env: read-only file system";
     os_not_exist := false |}.

#[global] Instance disk : FileSystem World := {
  Stat name w :=
    (match files w !! name with
     | Some _ => None
     | None => Some ENOENT
     end, w);
  WriteFile name data _ w :=
    if read_only w then (Some EROFS, w)
    else (None, {| files := <[name := data]> (files w);
                   read_only := false |})
}.

Definition blank : World := {| files := ∅; read_only := false |}.
Definition configured : World :=
  {| files := {[ ".env" := "OSS_BUCKET_NAME=photos" ]}; read_only := false |}.
Definition sealed : World := {| files := ∅; read_only := true |}.

End MemFS.

(** *** More sample inputs *)

Module Sample2.

(** A form with two files under ["file"] and a stray text file. *)
Definition crowded_form : Request :=
  {| MultipartForm :=
       Ok {[ "file" := [ {| Filename := "a.txt"; content := "hello" |};
                         {| Filename := "b.txt"; content := "world" |} ];
             "notes" := [ {| Filename := "n.txt"; content := "" |} ] ]} |}.

Definition not_multipart : Request :=
  {| MultipartForm :=
       Err (errorString "request Content-Type isn't multipart/form-data") |}.

End Sample2.

(** * The contract, claim by claim *)

(** Unfolding of the monad of handlers. *)
Ltac unfold_M :=
  unfold serve, start, mbind, mret, M_bind, M_ret, bind, ret,
    bucket_GetObjectMeta, bucket_GetObject, bucket_PutObject,
    bucket_DeleteObject, bucket_ListObjects, bucket, file_Open, io_Copy,
    time_Now, rand_Seed, rand_Intn, ask, c_JSON, c_Header, log_Printf,
    log_Fatalf, panic, out_of_fuel in *.

(** Each action of an explicit list is none of the responses that follow a
    [log.Fatalf]. *)
Ltac not_after_fatal :=
  repeat (apply List.Forall_cons;
          [intros [?|[?|[?|[? ?]]]]; discriminate|]);
  apply List.Forall_nil.

(** ** Existence check *)

Section Isexist.
Context {W : Type} `{!Env W}.

(** The handler makes one metadata query and sends exactly one JSON
    response, from any state. *)
Lemma handle_isexist_run (name : string) (s : State W) :
  ∃ act,
    handle_isexist name s =
      (Done (),
       mkState (GetObjectMeta name (world s)).2
               (calls s ++ [CallGetObjectMeta name])
               (out s ++ [act]) (logs s))
    ∧ isexist_answer name Error (GetObjectMeta name (world s)).1 act.
Proof.
  unfold handle_isexist. unfold_M.
  destruct (GetObjectMeta name (world s)) as [[meta|[e|msg|e]] w']
    eqn:Hmeta; cbn [fst snd].
  - eexists. split; [reflexivity|]. constructor.
  - destruct (String.eqb (Code e) "NoSuchKey") eqn:Hcode.
    + eexists. split; [reflexivity|].
      apply answer_missing. by apply String.eqb_eq.
    + eexists. split; [reflexivity|].
      apply answer_store_error. by apply String.eqb_neq.
  - eexists. split; [reflexivity|]. constructor.
  - eexists. split; [reflexivity|]. constructor.
Qed.

Lemma handle_isexist_serve (name : string) (w : W) :
  ∃ act,
    serve (handle_isexist name) w =
      (Done (),
       mkState (GetObjectMeta name w).2 [CallGetObjectMeta name] [act] [])
    ∧ isexist_answer name Error (GetObjectMeta name w).1 act.
Proof. exact (handle_isexist_run name (start w)). Qed.

Lemma isexist_answer_code name detail r act :
  isexist_answer name detail r act →
  code_of act = Some 200 ∨ code_of act = Some 500.
Proof. destruct 1; cbn; auto. Qed.

(** The answer of the existence check in every world: one response, by the
    cases of [isexist_answer], with status 200 or 500 and never 404. *)
Lemma handle_isexist_mapping (name : string) (w : W) :
  ∃ act,
    serve (handle_isexist name) w =
      (Done (),
       mkState (GetObjectMeta name w).2 [CallGetObjectMeta name] [act] [])
    ∧ isexist_answer name Error (GetObjectMeta name w).1 act
    ∧ (code_of act = Some 200 ∨ code_of act = Some 500)
    ∧ code_of act ≠ Some 404.
Proof.
  destruct (handle_isexist_run name (start w)) as (act & Hrun & Hact).
  exists act. split; [exact Hrun|]. split; [exact Hact|].
  pose proof (isexist_answer_code _ _ _ _ Hact) as Hcode.
  split; [exact Hcode|]. destruct Hcode as [-> | ->]; discriminate.
Qed.

(** A store error that arrives as an [oss.ServiceError] by value fails the
    assertion to [*oss.ServiceError]: whatever its code, NoSuchKey included,
    the answer is 500 with the raw error text. *)
Lemma isexist_of_value_error (name : string) (w : W) (e : ServiceError) :
  (GetObjectMeta name w).1 = Err (ServiceErrorVal e) →
  out (serve (handle_isexist name) w).2
  = [SendJSON 500
       [("message", JString ("Error: " +:+ ServiceError_Error e))]].
Proof.
  intros Hmeta.
  destruct (handle_isexist_serve name w) as (act & Hrun & Hact).
  rewrite Hrun. cbn [snd out]. rewrite Hmeta in Hact. by inversion Hact.
Qed.

End Isexist.

(** C1, at a key the bucket does not hold. The store reports NoSuchKey with
    status 404, as an [oss.ServiceError] by value; the existence check
    answers 500 with the raw error text, not 200 "does not exist". *)
Theorem isexist_of_a_missing_key :
  (GetObjectMeta "ghost" Mem.empty).1
  = Err (ServiceErrorVal
           {| Code := "NoSuchKey";
              Message := "The specified key does not exist.";
              RequestID := "";
              StatusCode := 404 |})
  ∧ serve (handle_isexist "ghost") Mem.empty =
      (Done (),
       mkState Mem.empty [CallGetObjectMeta "ghost"]
         [SendJSON 500
            [("message",
              JString
                ("Error: oss: service returned error: StatusCode=404, "
                 +:+ "ErrorCode=NoSuchKey, "
                 +:+ "ErrorMessage=The specified key does not exist., "
                 +:+ "RequestId="))]]
         [])
  ∧ out (serve (handle_isexist "ghost") Mem.empty).2
    ≠ [says_missing "ghost"].
Proof. vm_compute. repeat split; discriminate. Qed.

(** ** Generated file names *)

Lemma string_get_in (s : string) (k : nat) :
  (k < String.length s)%nat →
  ∃ c, String.get k s = Some c ∧ c ∈ String.list_ascii_of_string s.
Proof.
  revert k. induction s as [|a s IH]; intros k Hk; cbn in *; [lia|].
  destruct k as [|k].
  - exists a. split; [done|]. apply list_elem_of_here.
  - destruct (IH k) as (c & Hget & Hin); [lia|].
    exists c. split; [done|]. by apply list_elem_of_further.
Qed.

Lemma string_app_assoc (a b c : string) : (a +:+ b) +:+ c = a +:+ (b +:+ c).
Proof.
  induction a as [|x a IH]; [done|].
  change (String x ((a +:+ b) +:+ c) = String x (a +:+ b +:+ c)).
  by rewrite IH.
Qed.

Lemma string_app_nil_r (a : string) : a +:+ "" = a.
Proof.
  induction a as [|x a IH]; [done|].
  change (String x (a +:+ "") = String x a). by rewrite IH.
Qed.

Lemma charset_alnum :
  String.length charset = 62%nat
  ∧ NoDup (String.list_ascii_of_string charset)
  ∧ forallb is_alnum (String.list_ascii_of_string charset) = true.
Proof.
  split; [reflexivity|]. split; [|reflexivity].
  apply (bool_decide_unpack _). vm_compute. exact I.
Qed.

(** ** [filepath.Ext] *)

Lemma substring_all (s : string) : String.substring 0 (String.length s) s = s.
Proof. induction s as [|a s IH]; cbn; [done|]. by rewrite IH. Qed.

Lemma substring_is_suffix (s : string) :
  ∀ j, (j ≤ String.length s)%nat →
       has_suffix (String.substring j (String.length s - j) s) s.
Proof.
  induction s as [|a s IH]; intros j Hj.
  - exists "". by destruct j.
  - destruct j as [|j].
    + exists "". change (String.length (String a s) - 0)%nat
        with (String.length (String a s)). by rewrite substring_all.
    + destruct (IH j) as [front Hfront]; [cbn in Hj; lia|].
      exists (String a front). cbn [String.length String.substring].
      change (S (String.length s) - S j)%nat with (String.length s - j)%nat.
      change (String a front +:+ ?x) with (String a (front +:+ x)).
      by rewrite <- Hfront.
Qed.

Lemma substring_from_get (s : string) :
  ∀ j c, String.get j s = Some c →
         ∃ rest, String.substring j (String.length s - j) s = String c rest.
Proof.
  induction s as [|a s IH]; intros j c Hget; [by destruct j|].
  destruct j as [|j]; cbn in Hget.
  - injection Hget as ->. by eexists.
  - destruct (IH j c Hget) as [rest Hrest]. exists rest.
    cbn [String.length String.substring].
    by change (S (String.length s) - S j)%nat with (String.length s - j)%nat.
Qed.

Section Extension.
Context {W : Type} `{!Env W}.

Lemma Ext_loop_suffix (path : string) (i : nat) :
  (i ≤ String.length path)%nat → has_suffix (Ext_loop path i) path.
Proof.
  induction i as [|j IH]; intros Hi; cbn [Ext_loop].
  - exists path. by rewrite string_app_nil_r.
  - destruct (String.get j path) as [c|];
      [|exists path; by rewrite string_app_nil_r].
    destruct (IsPathSeparator c);
      [exists path; by rewrite string_app_nil_r|].
    destruct (Ascii.eqb c ".").
    + apply substring_is_suffix. lia.
    + apply IH. lia.
Qed.

(** The extension is a suffix of the path. *)
Lemma Ext_suffix (path : string) : has_suffix (Ext path) path.
Proof. by apply Ext_loop_suffix. Qed.

Lemma Ext_loop_dot (path : string) (i : nat) :
  Ext_loop path i = "" ∨ ∃ rest, Ext_loop path i = String "." rest.
Proof.
  induction i as [|j IH]; cbn [Ext_loop]; [by left|].
  destruct (String.get j path) as [c|] eqn:Hget; [|by left].
  destruct (IsPathSeparator c); [by left|].
  destruct (Ascii.eqb_spec c ".") as [->|_]; [|exact IH].
  right. by apply substring_from_get.
Qed.

(** The extension is empty or begins with a dot. *)
Lemma Ext_dot (path : string) :
  Ext path = "" ∨ ∃ rest, Ext path = String "." rest.
Proof. apply Ext_loop_dot. Qed.

(** The resolved extension of a download is never empty. *)
Lemma download_ext_dot (objectName : string) :
  ∃ rest, download_ext objectName = String "." rest.
Proof.
  unfold download_ext.
  destruct (String.eqb_spec (Ext objectName) "") as [_|Hne]; [by eexists|].
  by destruct (Ext_dot objectName).
Qed.

End Extension.

Lemma Ext_examples :
  Ext (W := Mem.World) "backup.tar.gz" = ".gz"
  ∧ Ext (W := Mem.World) "notes" = ""
  ∧ Ext (W := Mem.World) "v1.2/readme" = ""
  ∧ Ext (W := Mem.World) "trailing." = "."
  ∧ Ext (W := Mem.World) ".profile" = ".profile".
Proof. by vm_compute. Qed.

Section Filename.
Context {W : Type} `{!Env W}.
Hypothesis Intn_range : ∀ n w, 0 < n → 0 ≤ (Intn n w).1 < n.

Lemma random_chars_run (n : nat) :
  ∀ (acc : string) (s : State W),
  ∃ r w',
    random_chars n acc s =
      (Done (acc +:+ r), mkState w' (calls s) (out s) (logs s))
    ∧ String.length r = n
    ∧ Forall (in_charset charset) (String.list_ascii_of_string r).
Proof.
  induction n as [|n IH]; intros acc s.
  - exists "", (world s). cbn. destruct s. split; [|done].
    unfold_M. by rewrite string_app_nil_r.
  - cbn [random_chars]. unfold_M.
    pose proof (Intn_range (Z.of_nat (String.length charset)) (world s))
      as Hi.
    destruct (Intn (Z.of_nat (String.length charset)) (world s))
      as [i w1] eqn:Hintn.
    cbn [fst] in Hi. specialize (Hi ltac:(cbn; lia)).
    unfold charset_at. destruct (decide (0 ≤ i)%Z) as [_|]; [|lia].
    destruct (string_get_in charset (Z.to_nat i)) as (c & Hget & Hin).
    { change (String.length charset) with 62%nat in *. lia. }
    rewrite Hget. unfold_M.
    destruct (IH (acc +:+ String c "")
                (mkState w1 (calls s) (out s) (logs s)))
      as (r & w' & Hrun & Hlen & Hall).
    exists (String c r), w'. rewrite Hrun. cbn [calls out logs].
    rewrite string_app_assoc.
    change (String c "" +:+ r) with (String c r).
    split; [done|]. split; [by cbn; rewrite Hlen|].
    by constructor.
Qed.

(** A run of [generateRandomFilename]: two clock readings, ten draws,
    nothing written to the traces. *)
Lemma generateRandomFilename_run (ext : string) (s : State W) :
  ∃ t r w_before w_after,
    generateRandomFilename ext s =
      (Done (Sprintf_d_int64 (Unix t) +:+ "_" +:+ r +:+ ext),
       mkState w_after (calls s) (out s) (logs s))
    ∧ Now w_before = (t, w_after)
    ∧ String.length r = 10%nat
    ∧ Forall (in_charset charset) (String.list_ascii_of_string r).
Proof.
  unfold generateRandomFilename. unfold_M.
  destruct (Now (world s)) as [t0 w1] eqn:Hnow0.
  cbn -[random_chars].
  destruct (random_chars_run 10 ""
              (mkState (Seed (UnixNano t0) w1) (calls s) (out s) (logs s)))
    as (r & w3 & Hrun & Hlen & Hall).
  rewrite Hrun. cbn [world calls out logs].
  destruct (Now w3) as [t1 w4] eqn:Hnow1. cbn [world calls out logs].
  exists t1, r, w3, w4. done.
Qed.

(** C5. For every object key, the file name generated for its download is
    the decimal Unix time in seconds of a clock reading, an underscore, ten
    characters of the 62 distinct letters and digits of [charset], and the
    resolved extension; so it ends with the key's extension, and with
    [.bin] when the key has none. *)
Theorem generated_filename_shape (objectName : string) (s : State W) :
  ∃ t r w_before s',
    generateRandomFilename (download_ext objectName) s =
      (Done (Sprintf_d_int64 (Unix t) +:+ "_" +:+ r
             +:+ download_ext objectName), s')
    ∧ Now w_before = (t, world s')
    ∧ String.length r = 10%nat
    ∧ Forall (in_charset charset) (String.list_ascii_of_string r)
    ∧ String.length charset = 62%nat
    ∧ NoDup (String.list_ascii_of_string charset)
    ∧ forallb is_alnum (String.list_ascii_of_string charset) = true
    ∧ (Ext objectName ≠ "" →
       has_suffix (Ext objectName)
         (Sprintf_d_int64 (Unix t) +:+ "_" +:+ r
          +:+ download_ext objectName))
    ∧ (Ext objectName = "" →
       has_suffix ".bin"
         (Sprintf_d_int64 (Unix t) +:+ "_" +:+ r
          +:+ download_ext objectName)).
Proof.
  destruct (generateRandomFilename_run (download_ext objectName) s)
    as (t & r & w3 & w4 & Hrun & Hnow & Hlen & Hall).
  exists t, r, w3, (mkState w4 (calls s) (out s) (logs s)).
  destruct charset_alnum as (Hn & Hnd & Hal).
  repeat split; try done.
  - intros Hext. exists (Sprintf_d_int64 (Unix t) +:+ "_" +:+ r).
    unfold download_ext.
    destruct (String.eqb_spec (Ext objectName) "") as [|_]; [done|].
    by rewrite !string_app_assoc.
  - intros Hext. exists (Sprintf_d_int64 (Unix t) +:+ "_" +:+ r).
    unfold download_ext. rewrite Hext. cbn [String.eqb].
    by rewrite !string_app_assoc.
Qed.

End Filename.

(** ** Download *)

Section Download.
Context {W : Type} `{!Env W}.
Hypothesis Intn_range : ∀ n w, 0 < n → 0 ≤ (Intn n w).1 < n.

(** The whole run of a download whose two fetches succeed: two bucket
    calls, three headers, the body, and the closing JSON. *)
Lemma handle_download_run (objectName : string) (w w1 w2 : W)
    (meta : Header) (body : string) :
  GetObjectMeta objectName w = (Ok meta, w1) →
  GetObject objectName w1 = (Ok body, w2) →
  ∃ t r w3 w4 s' closing,
    serve (handle_download objectName) w = (Done (), s')
    ∧ Now w3 = (t, w4)
    ∧ String.length r = 10%nat
    ∧ Forall (in_charset charset) (String.list_ascii_of_string r)
    ∧ world s' = (Copy body w4).2
    ∧ calls s' = [CallGetObjectMeta objectName; CallGetObject objectName]
    ∧ out s' =
        [SetHeader "Content-Disposition"
           ("attachment; filename="
            +:+ (Sprintf_d_int64 (Unix t) +:+ "_" +:+ r
                 +:+ download_ext objectName));
         SetHeader "Content-Type" (TypeByExtension (download_ext objectName));
         SetHeader "Content-Length"
           (Sprintf_d_strings (default [] (meta !! "Content-Length")));
         WriteBody body (Copy body w4).1;
         closing]
    ∧ code_of closing =
        Some (match (Copy body w4).1 with Some _ => 500 | None => 200 end).
Proof.
  intros Hmeta Hget. unfold handle_download, serve, start.
  unfold mbind at 1, M_bind at 1, bind at 1.
  unfold bucket_GetObjectMeta, bucket. cbn [world calls out logs].
  rewrite Hmeta.
  unfold mbind at 1, M_bind at 1, bind at 1.
  unfold bucket_GetObject, bucket. cbn [world calls out logs].
  rewrite Hget.
  unfold mbind at 1, M_bind at 1, bind at 1.
  match goal with
  | |- context [generateRandomFilename ?e ?s] =>
      destruct (generateRandomFilename_run Intn_range e s)
        as (t & r & w3 & w4 & Hrun & Hnow & Hlen & Hall)
  end.
  rewrite Hrun. cbn [world calls out logs app].
  unfold_M. cbn [world calls out logs app].
  destruct (Copy body w4) as [[err|] w5] eqn:Hcopy;
    cbn [world calls out logs app fst snd];
    (eexists t, r, w3, w4, _, _; split; [reflexivity|]);
    rewrite Hcopy; done.
Qed.

(** What the handler writes as Content-Length is the [%d] rendering of the
    metadata's header values, a bracketed list, not a number. *)
Lemma download_content_length_rendering (objectName : string) (w w1 w2 : W)
    (meta : Header) (body : string) :
  GetObjectMeta objectName w = (Ok meta, w1) →
  GetObject objectName w1 = (Ok body, w2) →
  ∃ rest,
    header_set "Content-Length"
      (out (serve (handle_download objectName) w).2)
    = Some (String "[" rest).
Proof.
  intros Hmeta Hget.
  destruct (handle_download_run _ _ _ _ _ _ Hmeta Hget)
    as (t & r & w3 & w4 & s' & closing & Hrun & _ & _ & _ & _ & _ & Hout & Hc).
  rewrite Hrun. cbn [snd]. rewrite Hout.
  destruct closing; try discriminate. eexists.
  unfold header_set. cbn. reflexivity.
Qed.

(** C6, as the code has it. For every object whose metadata fetch and
    content fetch succeed, the value the handler gives the Content-Type
    header is [mime.TypeByExtension] of the resolved extension: the key's
    own extension, and [.bin] when the key has none.  Which type [.bin]
    names is the platform table's business. *)
Theorem content_type_by_resolved_extension (objectName : string) (w w1 w2 : W)
    (meta : Header) (body : string) :
  GetObjectMeta objectName w = (Ok meta, w1) →
  GetObject objectName w1 = (Ok body, w2) →
  header_set "Content-Type" (out (serve (handle_download objectName) w).2)
  = Some (TypeByExtension
            (if String.eqb (Ext objectName) "" then ".bin"
             else Ext objectName)).
Proof.
  intros Hmeta Hget.
  destruct (handle_download_run _ _ _ _ _ _ Hmeta Hget)
    as (t & r & w3 & w4 & s' & closing & Hrun & _ & _ & _ & _ & _ & Hout & Hc).
  rewrite Hrun. cbn [snd]. rewrite Hout.
  destruct closing; try discriminate.
  unfold header_set. cbn. reflexivity.
Qed.

(** Where the platform registers [.bin] as the generic binary type, a key
    without extension is served as such. *)
Lemma octet_stream_where_registered (objectName : string) (w w1 w2 : W)
    (meta : Header) (body : string) :
  GetObjectMeta objectName w = (Ok meta, w1) →
  GetObject objectName w1 = (Ok body, w2) →
  Ext objectName = "" →
  TypeByExtension ".bin" = "application/octet-stream" →
  header_set "Content-Type" (out (serve (handle_download objectName) w).2)
  = Some "application/octet-stream".
Proof.
  intros Hmeta Hget Hext Hbin.
  destruct (handle_download_run _ _ _ _ _ _ Hmeta Hget)
    as (t & r & w3 & w4 & s' & closing & Hrun & _ & _ & _ & _ & _ & Hout & Hc).
  rewrite Hrun. cbn [snd]. rewrite Hout.
  destruct closing; try discriminate.
  unfold header_set, download_ext. rewrite Hext. cbn. by rewrite Hbin.
Qed.

End Download.

(** ** Upload and delete *)

Section Upload.
Context {W : Type} `{!Env W}.

Lemma c_FormFile_lacks (req : Request) (name : string) (s : State W) :
  lacks_field req name →
  c_FormFile req name s = (Done (Err ErrMissingFile), s).
Proof.
  intros (form & Hform & Hnone). unfold c_FormFile. rewrite Hform.
  destruct (form !! name) as [[|fh l]|]; done.
Qed.

Lemma c_FormFile_first (req : Request) (name : string) (fh : FileHeader)
    (s : State W) :
  first_file req name = Some fh →
  c_FormFile req name s =
    (Done (match (Open fh (world s)).1 with
           | Some err => Err err
           | None => Ok fh
           end),
     mkState (Open fh (world s)).2 (calls s) (out s) (logs s)).
Proof.
  unfold first_file, c_FormFile. intros Hfirst.
  destruct (MultipartForm req) as [form|]; [|done].
  destruct (form !! name) as [[|fh' l]|]; try done.
  cbn in Hfirst. injection Hfirst as ->. unfold_M.
  by destruct (Open fh (world s)) as [[err|] w1].
Qed.

(** C7. For every upload request whose multipart form has no ["file"]
    field, the handler answers 400 with the message "Failed to get file",
    makes no bucket call and leaves the world as it found it. *)
Theorem upload_without_file_field (req : Request) (w : W) :
  lacks_field req "file" →
  serve (handle_upload req) w =
    (Done (),
     mkState w []
       [SendJSON 400 [("message", JString "Failed to get file")]]
       ["Failed to get file from form: " +:+ Error ErrMissingFile]).
Proof.
  intros Hlacks. unfold handle_upload, serve.
  unfold mbind at 1, M_bind at 1, bind at 1.
  by rewrite c_FormFile_lacks.
Qed.

(** The three answers of the world that decide an upload. *)
Lemma handle_upload_run (req : Request) (fh : FileHeader) (w : W) :
  first_file req "file" = Some fh →
  let o1 := Open fh w in
  let o2 := Open fh o1.2 in
  let p := PutObject (Filename fh) (content fh) o2.2 in
  serve (handle_upload req) w =
    match o1.1 with
    | Some err =>
        (Done (),
         mkState o1.2 []
           [SendJSON 400 [("message", JString "Failed to get file")]]
           ["Failed to get file from form: " +:+ Error err])
    | None =>
        match o2.1 with
        | Some err =>
            (Fatal ("Failed to open file: " +:+ Error err),
             mkState o2.2 [] [] ["Failed to open file: " +:+ Error err])
        | None =>
            match p.1 with
            | Some err =>
                (Fatal ("Failed to fetch URL: " +:+ Error err),
                 mkState p.2 [CallPutObject (Filename fh) (content fh)] []
                   ["Failed to fetch URL: " +:+ Error err])
            | None =>
                (Done (),
                 mkState p.2 [CallPutObject (Filename fh) (content fh)]
                   [upload_ok] ["File uploaded successfully."])
            end
        end
    end.
Proof.
  intros Hfirst. cbn zeta. unfold handle_upload, serve.
  unfold mbind at 1, M_bind at 1, bind at 1.
  rewrite (c_FormFile_first _ _ _ _ Hfirst). cbn [start world].
  destruct (Open fh w) as [[e1|] w1]; cbn [fst snd]; [done|].
  unfold_M. cbn [world calls out logs].
  destruct (Open fh w1) as [[e2|] w2]; cbn [fst snd]; [done|].
  cbn [world calls out logs].
  by destruct (PutObject (Filename fh) (content fh) w2) as [[e3|] w3].
Qed.

(** A request that ends with the success response had a file, both opens
    and the put succeeded, and the put is the only bucket call. *)
Lemma handle_upload_success (req : Request) (w : W) :
  responded (serve (handle_upload req) w) [upload_ok] →
  ∃ fh w1 w2,
    first_file req "file" = Some fh
    ∧ Open fh w = (None, w1)
    ∧ Open fh w1 = (None, w2)
    ∧ PutObject (Filename fh) (content fh) w2
      = (None, world (serve (handle_upload req) w).2)
    ∧ calls (serve (handle_upload req) w).2
      = [CallPutObject (Filename fh) (content fh)].
Proof.
  intros [[a Hdone] Hout].
  destruct (first_file req "file") as [fh|] eqn:Hfirst.
  - pose proof (handle_upload_run req fh w Hfirst) as Hrun.
    cbn zeta in Hrun. rewrite Hrun in Hdone, Hout |- *.
    destruct (Open fh w) as [[e1|] w1] eqn:Ho1; cbn [fst snd] in *; [done|].
    destruct (Open fh w1) as [[e2|] w2] eqn:Ho2; cbn [fst snd] in *;
      [done|].
    destruct (PutObject (Filename fh) (content fh) w2) as [[e3|] w3]
      eqn:Hput; cbn [fst snd] in *; [done|].
    exists fh, w1, w2. by rewrite Ho1, Ho2, Hput.
  - exfalso. unfold first_file in Hfirst.
    unfold handle_upload, serve in Hout.
    unfold mbind at 1, M_bind at 1, bind at 1 in Hout.
    destruct (MultipartForm req) as [form|err] eqn:Hform.
    + rewrite c_FormFile_lacks in Hout; [done|].
      exists form. split; [done|].
      by destruct (form !! "file") as [[|? ?]|].
    + unfold c_FormFile in Hout. rewrite Hform in Hout. done.
Qed.

Lemma handle_delete_run (objectName : string) (s : State W) :
  handle_delete objectName s =
    (Done (),
     mkState (DeleteObject objectName (world s)).2
       (calls s ++ [CallDeleteObject objectName])
       (out s ++
        [match (DeleteObject objectName (world s)).1 with
         | Some err =>
             SendJSON 500
               [("status", JString "error");
                ("message",
                 JString ("Failed to delete object: " +:+ Error err))]
         | None => delete_ok objectName
         end])
       (logs s)).
Proof.
  unfold handle_delete. unfold_M.
  by destruct (DeleteObject objectName (world s)) as [[err|] w1].
Qed.

Lemma handle_delete_success (objectName : string) (w : W) :
  responded (serve (handle_delete objectName) w) [delete_ok objectName] →
  DeleteObject objectName w
  = (None, world (serve (handle_delete objectName) w).2).
Proof.
  unfold serve. rewrite handle_delete_run. intros [_ Hout].
  cbn [snd out world start app] in *.
  destruct (DeleteObject objectName w) as [[err|] w1]; cbn [fst snd] in *;
    [done|reflexivity].
Qed.

End Upload.

(** ** Round trips through the store *)

Section StoreLaws.
Context {W : Type} `{!Env W}.

(** What the gateway relies on from the bucket: an object that was just put
    has metadata; a key that was just deleted is reported by an
    [oss.ServiceError], handed over by value; an object that was just put
    reads back as it was written. *)
Hypothesis put_then_meta : ∀ k v w w',
  PutObject k v w = (None, w') → ∃ meta, (GetObjectMeta k w').1 = Ok meta.
Hypothesis delete_then_value : ∀ k w w',
  DeleteObject k w = (None, w') →
  ∃ e, (GetObjectMeta k w').1 = Err (ServiceErrorVal e).
Hypothesis put_then_get : ∀ k v w w',
  PutObject k v w = (None, w') → (GetObject k w').1 = Ok v.

Lemma isexist_after_meta (name : string) (w : W) (meta : Header) :
  (GetObjectMeta name w).1 = Ok meta →
  out (serve (handle_isexist name) w).2 = [says_exists name].
Proof.
  intros Hmeta.
  destruct (handle_isexist_serve name w) as (act & Hrun & Hact).
  rewrite Hrun. cbn [snd out]. rewrite Hmeta in Hact. by inversion Hact.
Qed.

Lemma isexist_after_nosuchkey (name : string) (w : W) (e : ServiceError) :
  (GetObjectMeta name w).1 = Err (ServiceErrorPtr e) →
  Code e = "NoSuchKey" →
  out (serve (handle_isexist name) w).2 = [says_missing name].
Proof.
  intros Hmeta Hcode.
  destruct (handle_isexist_serve name w) as (act & Hrun & Hact).
  rewrite Hrun. cbn [snd out]. rewrite Hmeta in Hact.
  by inversion Hact.
Qed.

(** After a successful upload of a file named [f], the existence check of
    [f] answers "exists". *)
Lemma upload_then_exists (req : Request) (fh : FileHeader) (w : W) :
  first_file req "file" = Some fh →
  let up := serve (handle_upload req) w in
  responded up [upload_ok] →
  out (serve (handle_isexist (Filename fh)) (world up.2)).2
  = [says_exists (Filename fh)].
Proof.
  intros Hfirst up Hup.
  destruct (handle_upload_success req w Hup)
    as (fh' & w1 & w2 & Hfirst' & _ & _ & Hput & _).
  rewrite Hfirst in Hfirst'. injection Hfirst' as <-.
  destruct (put_then_meta _ _ _ _ Hput) as [meta Hmeta].
  by eapply isexist_after_meta.
Qed.

(** After a successful delete of [f], the existence check of [f] does not
    answer "does not exist": it answers 500 with the text of the store's
    error. *)
Lemma delete_then_isexist (f : string) (w : W) :
  let del := serve (handle_delete f) w in
  responded del [delete_ok f] →
  ∃ e,
    out (serve (handle_isexist f) (world del.2)).2
    = [SendJSON 500
         [("message", JString ("Error: " +:+ ServiceError_Error e))]]
    ∧ out (serve (handle_isexist f) (world del.2)).2 ≠ [says_missing f].
Proof.
  intros del Hdel.
  pose proof (handle_delete_success f w Hdel) as Hdelete.
  destruct (delete_then_value _ _ _ Hdelete) as [e Hmeta].
  exists e. unfold del in *.
  rewrite (isexist_of_value_error _ _ _ Hmeta). done.
Qed.

(** C8. For every successful upload the only bucket call is a put under
    the uploaded file's name, byte for byte; and of two successful uploads
    under one name [f], a read of [f] returns the content of the later
    one. *)
Theorem upload_last_write_wins (req1 req2 : Request) (fh1 fh2 : FileHeader)
    (f : string) (w : W) :
  first_file req1 "file" = Some fh1 →
  first_file req2 "file" = Some fh2 →
  Filename fh1 = f →
  Filename fh2 = f →
  let up1 := serve (handle_upload req1) w in
  let up2 := serve (handle_upload req2) (world up1.2) in
  responded up1 [upload_ok] →
  responded up2 [upload_ok] →
  calls up1.2 = [CallPutObject f (content fh1)]
  ∧ calls up2.2 = [CallPutObject f (content fh2)]
  ∧ (GetObject f (world up2.2)).1 = Ok (content fh2).
Proof.
  intros Hfirst1 Hfirst2 Hname1 Hname2 up1 up2 Hup1 Hup2.
  destruct (handle_upload_success req1 w Hup1)
    as (fh1' & ? & ? & Hfirst1' & _ & _ & _ & Hcalls1).
  destruct (handle_upload_success req2 (world up1.2) Hup2)
    as (fh2' & ? & ? & Hfirst2' & _ & _ & Hput2 & Hcalls2).
  rewrite Hfirst1 in Hfirst1'. injection Hfirst1' as <-.
  rewrite Hfirst2 in Hfirst2'. injection Hfirst2' as <-.
  rewrite Hname1 in Hcalls1. rewrite Hname2 in Hcalls2, Hput2.
  split; [exact Hcalls1|]. split; [exact Hcalls2|].
  by eapply put_then_get.
Qed.

End StoreLaws.

(** ** Listing *)

Section Listing.
Context {W : Type} `{!Env W}.

(** Whatever the store does and however the loop ends, it sends nothing,
    and its bucket calls are the listing queries the store answered. *)
Lemma list_loop_trace (fuel : nat) :
  ∀ (acc : list string) (m : string) (s : State W),
  ∃ ms rs,
    answers (world s) ms rs (world (list_loop fuel acc m s).2)
    ∧ calls (list_loop fuel acc m s).2
      = (calls s ++ (CallListObjects <$> ms))%list
    ∧ out (list_loop fuel acc m s).2 = out s.
Proof.
  induction fuel as [|fuel IH]; intros acc m s.
  - exists [], []. cbn. rewrite app_nil_r. split; [constructor|done].
  - cbn [list_loop]. unfold_M. cbn [world calls out logs].
    destruct (ListObjects m (world s)) as [[p|err] w1] eqn:Hlist.
    + destruct (IsTruncated p).
      * match goal with
        | |- context [list_loop fuel ?a ?k ?t] =>
            destruct (IH a k t) as (ms & rs & Hans & Hcalls & Hout)
        end.
        exists (m :: ms), (Ok p :: rs). cbn [world calls out] in *.
        split; [by econstructor|]. split; [|done].
        rewrite Hcalls. by rewrite <- app_assoc.
      * exists [m], [Ok p]. cbn. split; [|done].
        econstructor; [done|constructor].
    + exists [m], [Err err]. cbn. split; [|done].
      econstructor; [done|constructor].
Qed.

(** The loop on a store that serves the truncated pages [pre] and then the
    untruncated page [final]. *)
Lemma list_loop_pages (pre : list ListObjectsResult) :
  ∀ (final : ListObjectsResult) (fuel : nat) (acc : list string)
    (m : string) (s : State W) (w' : W),
  Forall (λ p, IsTruncated p = true) pre →
  IsTruncated final = false →
  answers (world s) (markers m pre) (Ok <$> (pre ++ [final])) w' →
  (length pre < fuel)%nat →
  list_loop fuel acc m s =
    (Done (acc ++ page_keys (pre ++ [final]))%list,
     mkState w' (calls s ++ (CallListObjects <$> markers m pre))
       (out s) (logs s)).
Proof.
  induction pre as [|p pre IH]; intros final fuel acc m s w' Hpre Hfinal
    Hans Hfuel; (destruct fuel as [|fuel]; [cbn in Hfuel; lia|]).
  - inversion Hans as [|? ? ? w1 ? ? ? Hlist Hrest]; subst.
    inversion Hrest; subst.
    cbn [list_loop]. unfold_M. rewrite Hlist. cbn [world calls out logs].
    rewrite Hfinal. unfold page_keys. cbn. by rewrite app_nil_r.
  - inversion Hans as [|? ? ? w1 ? ? ? Hlist Hrest]; subst.
    apply Forall_cons in Hpre as [Hp Hpre].
    cbn [list_loop]. unfold_M. rewrite Hlist. cbn [world calls out logs].
    rewrite Hp.
    rewrite (IH final fuel _ (NextMarker p) _ w' Hpre Hfinal);
      [|exact Hrest|cbn in Hfuel; lia].
    cbn [world calls out logs]. unfold page_keys, markers. cbn.
    by rewrite <- !app_assoc.
Qed.

(** The loop on a store that serves the truncated pages [pre] and then
    fails: the process ends there. *)
Lemma list_loop_fatal (pre : list ListObjectsResult) :
  ∀ (err : error) (fuel : nat) (acc : list string) (m : string)
    (s : State W) (w' : W),
  Forall (λ p, IsTruncated p = true) pre →
  answers (world s) (markers m pre) ((Ok <$> pre) ++ [Err err]) w' →
  (length pre < fuel)%nat →
  list_loop fuel acc m s =
    (Fatal ("Failed to list objects: " +:+ Error err),
     mkState w' (calls s ++ (CallListObjects <$> markers m pre))
       (out s) (logs s ++ ["Failed to list objects: " +:+ Error err])).
Proof.
  induction pre as [|p pre IH]; intros err fuel acc m s w' Hpre Hans Hfuel;
    (destruct fuel as [|fuel]; [cbn in Hfuel; lia|]).
  - inversion Hans as [|? ? ? w1 ? ? ? Hlist Hrest]; subst.
    inversion Hrest; subst.
    cbn [list_loop]. unfold_M. rewrite Hlist. done.
  - inversion Hans as [|? ? ? w1 ? ? ? Hlist Hrest]; subst.
    apply Forall_cons in Hpre as [Hp Hpre].
    cbn [list_loop]. unfold_M. rewrite Hlist. cbn [world calls out logs].
    rewrite Hp.
    rewrite (IH err fuel _ (NextMarker p) _ w' Hpre);
      [|exact Hrest|cbn in Hfuel; lia].
    cbn [world calls out logs]. unfold markers. cbn.
    by rewrite <- !app_assoc.
Qed.

(** Conversely, a listing that ends normally was served some truncated
    pages and then an untruncated one, and answers their keys. *)
Lemma list_loop_done (fuel : nat) :
  ∀ (acc : list string) (m : string) (s s' : State W) (keys : list string),
  list_loop fuel acc m s = (Done keys, s') →
  ∃ pre final,
    Forall (λ p, IsTruncated p = true) pre
    ∧ IsTruncated final = false
    ∧ answers (world s) (markers m pre) (Ok <$> (pre ++ [final])) (world s')
    ∧ keys = acc ++ page_keys (pre ++ [final]).
Proof.
  induction fuel as [|fuel IH]; intros acc m s s' keys Hrun; [done|].
  cbn [list_loop] in Hrun. unfold_M. cbn [world calls out logs] in Hrun.
  destruct (ListObjects m (world s)) as [[p|err] w1] eqn:Hlist; [|done].
  destruct (IsTruncated p) eqn:Hp.
  - destruct (IH _ _ _ _ _ Hrun) as (pre & final & Hpre & Hfinal & Hans & ->).
    exists (p :: pre), final. cbn [world] in Hans.
    split; [by constructor|]. split; [done|].
    split; [by econstructor|].
    unfold page_keys. cbn. by rewrite <- app_assoc.
  - injection Hrun as <- <-. exists [], p. cbn [world].
    split; [constructor|]. split; [done|].
    split; [econstructor; [done|constructor]|].
    unfold page_keys. cbn. by rewrite app_nil_r.
Qed.

Lemma handle_list_done (fuel : nat) (w : W) (s' : State W) :
  serve (handle_list fuel) w = (Done (), s') →
  ∃ pre final,
    Forall (λ p, IsTruncated p = true) pre
    ∧ IsTruncated final = false
    ∧ answers w (markers "" pre) (Ok <$> (pre ++ [final])) (world s')
    ∧ out s' = [list_ok (page_keys (pre ++ [final]))].
Proof.
  unfold handle_list, serve. unfold mbind at 1, M_bind at 1, bind at 1.
  destruct (list_loop_trace fuel [] "" (start w)) as (_ & _ & _ & _ & Hout).
  destruct (list_loop fuel [] "" (start w)) as [[keys| | |] s1] eqn:Hloop;
    try done.
  destruct (list_loop_done _ _ _ _ _ _ Hloop)
    as (pre & final & Hpre & Hfinal & Hans & ->).
  unfold_M. intros [= <-]. exists pre, final. cbn [world out snd] in *.
  rewrite Hout. done.
Qed.

(** The list handler adds no bucket call to those of its loop. *)
Lemma handle_list_trace (fuel : nat) (w : W) :
  ∃ ms rs,
    answers w ms rs (world (serve (handle_list fuel) w).2)
    ∧ calls (serve (handle_list fuel) w).2 = CallListObjects <$> ms.
Proof.
  destruct (list_loop_trace fuel [] "" (start w))
    as (ms & rs & Hans & Hcalls & _).
  exists ms, rs. unfold handle_list, serve, mbind, M_bind, bind.
  destruct (list_loop fuel [] "" (start w)) as [[keys| | |] s1];
    destruct s1 as [w4 c4 o4 l4]; cbn [snd calls world start app] in *;
    by subst c4.
Qed.

(** C3. For every sequence of pages the store serves - truncated pages
    [pre], then a first untruncated page [final] - in answer to the queries
    that start at the empty marker and continue at each page's
    continuation marker, the list handler makes exactly those queries and
    no other bucket call, stops after [final], and answers 200 with the
    keys of all the pages, in the order served. *)
Theorem list_follows_markers (pre : list ListObjectsResult)
    (final : ListObjectsResult) (fuel : nat) (w w' : W) :
  Forall (λ p, IsTruncated p = true) pre →
  IsTruncated final = false →
  answers w (markers "" pre) (Ok <$> (pre ++ [final])) w' →
  (length pre < fuel)%nat →
  serve (handle_list fuel) w =
    (Done (),
     mkState w' (CallListObjects <$> markers "" pre)
       [list_ok (page_keys (pre ++ [final]))]
       ["All objects have been listed."]).
Proof.
  intros Hpre Hfinal Hans Hfuel. unfold handle_list, serve.
  unfold mbind at 1, M_bind at 1, bind at 1.
  by rewrite (list_loop_pages pre final fuel [] "" (start w) w').
Qed.

End Listing.

(** ** Fatal paths *)

Section FatalPaths.
Context {W : Type} `{!Env W}.

Lemma random_chars_frame (n : nat) :
  ∀ (acc : string) (s : State W),
    calls (random_chars n acc s).2 = calls s
    ∧ out (random_chars n acc s).2 = out s.
Proof.
  induction n as [|n IH]; intros acc s; [done|].
  cbn [random_chars]. unfold_M.
  destruct (Intn _ (world s)) as [i w1].
  unfold charset_at. destruct (decide (0 ≤ i)%Z); [|done].
  destruct (String.get (Z.to_nat i) charset) as [c|]; [|done].
  unfold_M. cbn [world calls out logs].
  match goal with
  | |- context [random_chars n ?a ?t] =>
      destruct (IH a t) as [Hcalls Hout];
      destruct (random_chars n a t) as [[]]
  end; done.
Qed.

Lemma generateRandomFilename_frame (ext : string) (s : State W) :
  calls (generateRandomFilename ext s).2 = calls s
  ∧ out (generateRandomFilename ext s).2 = out s.
Proof.
  unfold generateRandomFilename. unfold_M.
  destruct (Now (world s)) as [t0 w1]. cbn -[random_chars].
  match goal with
  | |- context [random_chars 10 ?a ?t] =>
      destruct (random_chars_frame 10 a t) as [Hcalls Hout];
      destruct (random_chars 10 a t) as [[r| | |] s1]
  end; cbn [snd world calls out logs] in *; try done.
  by destruct (Now (world s1)).
Qed.

Lemma c_FormFile_none (req : Request) (name : string) (s : State W) :
  first_file req name = None →
  ∃ err, c_FormFile req name s = (Done (Err err), s).
Proof.
  unfold first_file, c_FormFile. intros Hfirst.
  destruct (MultipartForm req) as [form|err]; [|by eexists].
  destruct (form !! name) as [[|fh l]|]; try done; by eexists.
Qed.

Lemma upload_never_after_fatal (req : Request) (w : W) :
  Forall (λ a, ¬ after_fatal a) (out (serve (handle_upload req) w).2).
Proof.
  destruct (first_file req "file") as [fh|] eqn:Hfirst.
  - pose proof (handle_upload_run req fh w Hfirst) as Hrun.
    cbn zeta in Hrun. rewrite Hrun.
    destruct (Open fh w).1; [cbn; not_after_fatal|].
    destruct (Open fh (Open fh w).2).1; [cbn; not_after_fatal|].
    destruct (PutObject _ _ _).1; cbn; not_after_fatal.
  - unfold handle_upload, serve.
    unfold mbind at 1, M_bind at 1, bind at 1.
    destruct (c_FormFile_none req "file" (start w) Hfirst) as [err ->].
    cbn. not_after_fatal.
Qed.

Lemma download_never_after_fatal (objectName : string) (w : W) :
  Forall (λ a, ¬ after_fatal a)
    (out (serve (handle_download objectName) w).2).
Proof.
  unfold handle_download, serve, start.
  unfold mbind at 1, M_bind at 1, bind at 1.
  unfold bucket_GetObjectMeta, bucket. cbn [world calls out logs].
  destruct (GetObjectMeta objectName w) as [[meta|err] w1];
    [|cbn; not_after_fatal].
  unfold mbind at 1, M_bind at 1, bind at 1.
  unfold bucket_GetObject, bucket. cbn [world calls out logs].
  destruct (GetObject objectName w1) as [[body|err] w2];
    [|cbn; not_after_fatal].
  unfold mbind at 1, M_bind at 1, bind at 1.
  match goal with
  | |- context [generateRandomFilename ?e ?t] =>
      destruct (generateRandomFilename_frame e t) as [_ Hout];
      destruct (generateRandomFilename e t) as [[name| | |] s1]
  end; destruct s1 as [w4 c4 o4 l4]; cbn [snd out] in Hout; subst o4;
    try (cbn; not_after_fatal).
  unfold_M. cbn [world calls out logs].
  destruct (Copy body w4) as [[err|] w5]; cbn; not_after_fatal.
Qed.

Lemma list_never_after_fatal (fuel : nat) (w : W) :
  Forall (λ a, ¬ after_fatal a) (out (serve (handle_list fuel) w).2).
Proof.
  unfold handle_list, serve.
  unfold mbind at 1, M_bind at 1, bind at 1.
  destruct (list_loop_trace fuel [] "" (start w)) as (_ & _ & _ & _ & Hout).
  destruct (list_loop fuel [] "" (start w)) as [[keys| | |] s1];
    destruct s1 as [w4 c4 o4 l4]; cbn [snd out start] in Hout; subst o4;
    cbn; not_after_fatal.
Qed.

Lemma handle_download_fatal (objectName : string) (meta : Header)
    (w w1 w2 : W) (err : error) :
  GetObjectMeta objectName w = (Ok meta, w1) →
  GetObject objectName w1 = (Err err, w2) →
  serve (handle_download objectName) w =
    (Fatal ("Failed to get object: " +:+ Error err),
     mkState w2 [CallGetObjectMeta objectName; CallGetObject objectName]
       [] ["Failed to get object: " +:+ Error err]).
Proof.
  intros Hmeta Hget. unfold handle_download. unfold_M.
  cbn [world calls out logs]. rewrite Hmeta. cbn [world calls out logs].
  by rewrite Hget.
Qed.

(** C9. In each of the four failure cases - the second open of the
    uploaded file fails, the put fails, the content fetch of a download
    fails, a listing query fails after any number of truncated pages -
    the run ends in the fatal outcome with nothing sent to the client;
    and no run of that handler, in any world, ever sends one of the JSON
    error responses written after the [log.Fatalf] calls. *)
Theorem fatal_paths_terminate (h : M W unit) (w w' : W) (msg : string)
    (cs : list StoreCall) :
  fatal_case h w msg w' cs →
  serve h w = (Fatal msg, mkState w' cs [] [msg])
  ∧ ∀ w0, Forall (λ a, ¬ after_fatal a) (out (serve h w0).2).
Proof.
  destruct 1 as [req fh w w1 w2 err Hfirst Ho1 Ho2
                |req fh w w1 w2 w3 err Hfirst Ho1 Ho2 Hput
                |objectName meta w w1 w2 err Hmeta Hget
                |pre fuel w w' err Hpre Hans Hfuel].
  - split; [|intros; apply upload_never_after_fatal].
    rewrite (handle_upload_run req fh w Hfirst). cbn zeta.
    rewrite Ho1. cbn [fst snd]. by rewrite Ho2.
  - split; [|intros; apply upload_never_after_fatal].
    rewrite (handle_upload_run req fh w Hfirst). cbn zeta.
    rewrite Ho1. cbn [fst snd]. rewrite Ho2. cbn [fst snd].
    by rewrite Hput.
  - split; [|intros; apply download_never_after_fatal].
    by eapply handle_download_fatal.
  - split; [|intros; apply list_never_after_fatal].
    unfold handle_list, serve.
    unfold mbind at 1, M_bind at 1, bind at 1.
    by rewrite (list_loop_fatal pre err fuel [] "" (start w) w').
Qed.

End FatalPaths.

(** ** Read-only handlers *)

Section ReadOnly.
Context {W : Type} `{!Env W}.

(** [view] is whatever one wants to observe of the stored objects; the
    store's two queries do not change it. *)
Context {V : Type} (view : W → V).
Hypothesis meta_keeps : ∀ k w, view (GetObjectMeta k w).2 = view w.
Hypothesis list_keeps : ∀ m w, view (ListObjects m w).2 = view w.

Lemma answers_keep (w w' : W) ms rs :
  answers w ms rs w' → view w' = view w.
Proof.
  induction 1 as [|w m r w1 ms rs w' Hlist _ IH]; [done|].
  rewrite IH. pose proof (list_keeps m w) as Hkeep.
  by rewrite Hlist in Hkeep.
Qed.

Lemma listing_calls_are_queries (ms : list string) :
  Forall (λ c, is_query c = true ∧ is_mutation c = false)
    (CallListObjects <$> ms).
Proof. induction ms; cbn; by constructor. Qed.

(** C10. For every request, the existence check makes one metadata query
    and the list handler makes listing queries only, however many pages it
    fetches and however it ends; neither issues a put or a delete, and
    the stored objects are afterwards what they were. *)
Theorem isexist_and_list_read_only (name : string) (fuel : nat) (w : W) :
  let ex := serve (handle_isexist name) w in
  let ls := serve (handle_list fuel) w in
  calls ex.2 = [CallGetObjectMeta name]
  ∧ view (world ex.2) = view w
  ∧ Forall (λ c, is_query c = true ∧ is_mutation c = false) (calls ls.2)
  ∧ view (world ls.2) = view w.
Proof.
  cbn zeta.
  destruct (handle_isexist_serve name w) as (act & -> & _).
  cbn [snd calls world]. split; [done|]. split; [apply meta_keeps|].
  destruct (handle_list_trace fuel w) as (ms & rs & Hans & ->).
  split; [apply listing_calls_are_queries|by eapply answers_keep].
Qed.

End ReadOnly.

(** * The contract on concrete worlds *)

(** ** Laws of the in-memory bucket *)

Lemma Mem_Intn_range (n : Z) (w : Mem.World) :
  0 < n → 0 ≤ (Intn n w).1 < n.
Proof. intros Hn. cbn. by apply Z.mod_pos_bound. Qed.

Lemma Mem_put_then_meta (k v : string) (w w' : Mem.World) :
  PutObject k v w = (None, w') → ∃ meta, (GetObjectMeta k w').1 = Ok meta.
Proof.
  cbn. intros [= <-]. cbn. rewrite lookup_insert_eq. by eexists.
Qed.

Lemma Mem_delete_then_value (k : string) (w w' : Mem.World) :
  DeleteObject k w = (None, w') →
  ∃ e, (GetObjectMeta k w').1 = Err (ServiceErrorVal e).
Proof.
  cbn. intros [= <-]. cbn. rewrite lookup_delete_eq. by eexists.
Qed.

Lemma Mem_put_then_get (k v : string) (w w' : Mem.World) :
  PutObject k v w = (None, w') → (GetObject k w').1 = Ok v.
Proof. cbn. intros [= <-]. cbn. by rewrite lookup_insert_eq. Qed.

(** ** Content-Length *)

(** C4, at an object of five bytes. The metadata carries Content-Length
    ["5"]; the header the handler writes is the [%d] rendering of that
    one-element string slice, which is not the decimal size. *)
Theorem download_content_length_of_hello :
  let w := Sample.bucket_with "a.txt" "hello" in
  (GetObjectMeta "a.txt" w).1 = Ok {[ "Content-Length" := ["5"] ]}
  ∧ (GetObject "a.txt" w).1 = Ok "hello"
  ∧ (serve (handle_download "a.txt") w).1 = Done ()
  ∧ header_set "Content-Length" (out (serve (handle_download "a.txt") w).2)
    = Some "[%!d(string=5)]"
  ∧ header_set "Content-Length" (out (serve (handle_download "a.txt") w).2)
    ≠ Some (Sprintf_d_int64 5).
Proof. vm_compute. repeat split; discriminate. Qed.

(** ** Content-Type *)

(** C6 as stated fails: with Go's built-in MIME table, which has no entry
    for [.bin], the download of the extensionless key ["data"] gets the
    empty type, not application/octet-stream. *)
Lemma bin_without_registered_type :
  ¬ (∀ (W : Type) (E : Env W) (objectName : string) (w w1 w2 : W)
       (meta : Header) (body : string),
       GetObjectMeta objectName w = (Ok meta, w1) →
       GetObject objectName w1 = (Ok body, w2) →
       Ext objectName = "" →
       header_set "Content-Type"
         (out (serve (handle_download objectName) w).2)
       = Some "application/octet-stream").
Proof.
  intros Hclaim.
  specialize (Hclaim Mem.World Mem.env "data"
                (Sample.bucket_with "data" "hello")
                _ _ _ _ eq_refl eq_refl eq_refl).
  vm_compute in Hclaim. discriminate.
Qed.

(** ** Instances on concrete inputs *)

Lemma content_type_of_png :
  let w := Sample.bucket_with "pic.png" "hello" in
  GetObjectMeta "pic.png" w = (Ok {[ "Content-Length" := ["5"] ]}, w)
  ∧ GetObject "pic.png" w = (Ok "hello", w)
  ∧ header_set "Content-Type" (out (serve (handle_download "pic.png") w).2)
    = Some "image/png".
Proof.
  cbn zeta. split; [reflexivity|]. split; [reflexivity|].
  exact (content_type_by_resolved_extension Mem_Intn_range "pic.png"
           (Sample.bucket_with "pic.png" "hello") _ _ _ _ eq_refl eq_refl).
Defined.

Lemma generated_filename_of_report :
  ∃ t r w_before s',
    generateRandomFilename (download_ext "report.pdf") (start Mem.empty) =
      (Done (Sprintf_d_int64 (Unix t) +:+ "_" +:+ r
             +:+ download_ext "report.pdf"), s')
    ∧ Now w_before = (t, world s')
    ∧ String.length r = 10%nat
    ∧ Forall (in_charset charset) (String.list_ascii_of_string r)
    ∧ String.length charset = 62%nat
    ∧ NoDup (String.list_ascii_of_string charset)
    ∧ forallb is_alnum (String.list_ascii_of_string charset) = true
    ∧ (Ext "report.pdf" ≠ "" →
       has_suffix (Ext "report.pdf")
         (Sprintf_d_int64 (Unix t) +:+ "_" +:+ r
          +:+ download_ext "report.pdf"))
    ∧ (Ext "report.pdf" = "" →
       has_suffix ".bin"
         (Sprintf_d_int64 (Unix t) +:+ "_" +:+ r
          +:+ download_ext "report.pdf")).
Proof.
  exact (generated_filename_shape Mem_Intn_range "report.pdf"
           (start Mem.empty)).
Defined.

Lemma empty_form_gets_400 :
  lacks_field Sample.form_without_file "file"
  ∧ serve (handle_upload Sample.form_without_file) Mem.empty =
      (Done (),
       mkState Mem.empty []
         [SendJSON 400 [("message", JString "Failed to get file")]]
         ["Failed to get file from form: http: no such file"]).
Proof.
  assert (lacks_field Sample.form_without_file "file") as Hlacks.
  { exists ∅. split; reflexivity. }
  split; [exact Hlacks|].
  exact (upload_without_file_field Sample.form_without_file Mem.empty Hlacks).
Defined.

(** C2, on the in-memory bucket. The file [a.txt] is uploaded and the
    existence check answers "exists"; it is deleted and the bucket holds it
    no more; the existence check that follows answers 500 with the raw
    error text, not 200 "does not exist". *)
Theorem round_trip_of_a_txt_ends_in_500 :
  let up :=
    serve (handle_upload (Sample.form_with "a.txt" "hello")) Mem.empty in
  let del := serve (handle_delete "a.txt") (world up.2) in
  out up.2 = [upload_ok]
  ∧ out (serve (handle_isexist "a.txt") (world up.2)).2
    = [says_exists "a.txt"]
  ∧ out del.2 = [delete_ok "a.txt"]
  ∧ Mem.objects (world del.2) !! "a.txt" = None
  ∧ out (serve (handle_isexist "a.txt") (world del.2)).2
    = [SendJSON 500
         [("message",
           JString
             ("Error: oss: service returned error: StatusCode=404, "
              +:+ "ErrorCode=NoSuchKey, "
              +:+ "ErrorMessage=The specified key does not exist., "
              +:+ "RequestId="))]]
  ∧ out (serve (handle_isexist "a.txt") (world del.2)).2
    ≠ [says_missing "a.txt"].
Proof. vm_compute. repeat split; discriminate. Qed.

Lemma last_write_wins_of_a_txt :
  let up1 := serve (handle_upload (Sample.form_with "a.txt" "old")) Mem.empty in
  let up2 :=
    serve (handle_upload (Sample.form_with "a.txt" "new")) (world up1.2) in
  calls up1.2 = [CallPutObject "a.txt" "old"]
  ∧ calls up2.2 = [CallPutObject "a.txt" "new"]
  ∧ (GetObject "a.txt" (world up2.2)).1 = Ok "new".
Proof.
  apply (upload_last_write_wins Mem_put_then_get
           (Sample.form_with "a.txt" "old") (Sample.form_with "a.txt" "new")
           {| Filename := "a.txt"; content := "old" |}
           {| Filename := "a.txt"; content := "new" |} "a.txt" Mem.empty).
  - reflexivity.
  - reflexivity.
  - reflexivity.
  - reflexivity.
  - split; [by exists ()|reflexivity].
  - split; [by exists ()|reflexivity].
Defined.

Lemma list_of_two_pages :
  serve (handle_list 2) Scenario.two_pages =
    (Done (),
     mkState Script.idle [CallListObjects ""; CallListObjects "b"]
       [list_ok ["a"; "b"; "c"]] ["All objects have been listed."]).
Proof.
  apply (list_follows_markers [Scenario.first_page] Scenario.last_page 2
           Scenario.two_pages Script.idle).
  - repeat constructor.
  - reflexivity.
  - eapply answers_cons; [reflexivity|].
    eapply answers_cons; [reflexivity|]. apply answers_nil.
  - cbn. lia.
Defined.

Lemma fatal_paths_of_timeouts :
  (serve (handle_upload (Sample.form_with "a.txt" "hello"))
     Scenario.second_open_fails
   = (Fatal "Failed to open file: i/o timeout",
      mkState Script.idle [] [] ["Failed to open file: i/o timeout"]))
  ∧ (serve (handle_upload (Sample.form_with "a.txt" "hello"))
       Scenario.put_fails
     = (Fatal "Failed to fetch URL: i/o timeout",
        mkState Script.idle [CallPutObject "a.txt" "hello"] []
          ["Failed to fetch URL: i/o timeout"]))
  ∧ (serve (handle_download "a.txt") Scenario.get_fails
     = (Fatal "Failed to get object: i/o timeout",
        mkState Script.idle
          [CallGetObjectMeta "a.txt"; CallGetObject "a.txt"] []
          ["Failed to get object: i/o timeout"]))
  ∧ (serve (handle_list 2) Scenario.page_then_timeout
     = (Fatal "Failed to list objects: i/o timeout",
        mkState Script.idle [CallListObjects ""; CallListObjects "b"] []
          ["Failed to list objects: i/o timeout"])).
Proof.
  split; [|split; [|split]].
  - refine (proj1 (fatal_paths_terminate _ _ _ _ _
                     (fatal_open (Sample.form_with "a.txt" "hello")
                        {| Filename := "a.txt"; content := "hello" |}
                        Scenario.second_open_fails _ Script.idle
                        Sample.timeout eq_refl eq_refl eq_refl))).
  - refine (proj1 (fatal_paths_terminate _ _ _ _ _
                     (fatal_put (Sample.form_with "a.txt" "hello")
                        {| Filename := "a.txt"; content := "hello" |}
                        Scenario.put_fails _ _ Script.idle
                        Sample.timeout eq_refl eq_refl eq_refl eq_refl))).
  - refine (proj1 (fatal_paths_terminate _ _ _ _ _
                     (fatal_get "a.txt" _ Scenario.get_fails _ Script.idle
                        Sample.timeout eq_refl eq_refl))).
  - refine (proj1 (fatal_paths_terminate _ _ _ _ _
                     (fatal_list [Scenario.first_page] 2
                        Scenario.page_then_timeout Script.idle
                        Sample.timeout _ _ _))).
    + repeat constructor.
    + eapply answers_cons; [reflexivity|].
      eapply answers_cons; [reflexivity|]. apply answers_nil.
    + cbn. lia.
Defined.

Lemma read_only_on_a_bucket :
  let w := Sample.bucket_with "a.txt" "hello" in
  let ex := serve (handle_isexist "a.txt") w in
  let ls := serve (handle_list 3) w in
  calls ex.2 = [CallGetObjectMeta "a.txt"]
  ∧ Mem.objects (world ex.2) = Mem.objects w
  ∧ Forall (λ c, is_query c = true ∧ is_mutation c = false) (calls ls.2)
  ∧ Mem.objects (world ls.2) = Mem.objects w.
Proof.
  exact (isexist_and_list_read_only Mem.objects
           (λ k w, eq_refl) (λ m w, eq_refl)
           "a.txt" 3 (Sample.bucket_with "a.txt" "hello")).
Defined.

(** * Beyond the claims *)

(** ** Characters of a decimal rendering *)

Lemma pretty_N_go_decimal (x : N) :
  ∀ s, forallb is_decimal_char (String.list_ascii_of_string s) = true →
       forallb is_decimal_char
         (String.list_ascii_of_string (pretty_N_go x s)) = true.
Proof.
  induction (N.lt_wf_0 x) as [x _ IH]; intros s Hs.
  assert (x = 0 ∨ 0 < x)%N as [->|Hpos] by lia.
  - by rewrite pretty_N_go_0.
  - rewrite pretty_N_go_step by done.
    apply IH; [by apply N.div_lt|].
    cbn [String.list_ascii_of_string forallb]. rewrite Hs, andb_true_r.
    unfold pretty_N_char. by repeat case_match.
Qed.

Lemma pretty_N_decimal (x : N) :
  forallb is_decimal_char (String.list_ascii_of_string (pretty x)) = true.
Proof.
  unfold pretty, pretty_N. case_decide; [done|].
  by apply pretty_N_go_decimal.
Qed.

(** Every character of [%d] on an [int64] is a digit or the minus sign. *)
Lemma Sprintf_d_int64_decimal (z : Z) :
  forallb is_decimal_char
    (String.list_ascii_of_string (Sprintf_d_int64 z)) = true.
Proof.
  unfold Sprintf_d_int64, pretty, pretty_Z. destruct z as [|p|p].
  - done.
  - apply pretty_N_decimal.
  - change ("-" +:+ pretty p) with (String "-" (pretty p)).
    cbn [String.list_ascii_of_string forallb].
    exact (pretty_N_decimal (Npos p)).
Qed.

(** ** Download, in full *)

Section DownloadRuns.
Context {W : Type} `{!Env W}.
Hypothesis Intn_range : ∀ n w, 0 < n → 0 ≤ (Intn n w).1 < n.

Lemma handle_download_full_run (objectName : string) (w w1 w2 : W)
    (meta : Header) (body : string) :
  GetObjectMeta objectName w = (Ok meta, w1) →
  GetObject objectName w1 = (Ok body, w2) →
  ∃ t r w3 w4,
    Now w3 = (t, w4)
    ∧ String.length r = 10%nat
    ∧ serve (handle_download objectName) w =
        (Done (),
         mkState (Copy body w4).2
           [CallGetObjectMeta objectName; CallGetObject objectName]
           [SetHeader "Content-Disposition"
              ("attachment; filename="
               +:+ filename_of (Unix t) r (download_ext objectName));
            SetHeader "Content-Type"
              (TypeByExtension (download_ext objectName));
            SetHeader "Content-Length"
              (Sprintf_d_strings (default [] (meta !! "Content-Length")));
            WriteBody body (Copy body w4).1;
            match (Copy body w4).1 with
            | Some _ =>
                SendJSON 500
                  [("message", JString "Failed to send file to client")]
            | None =>
                SendJSON 200
                  [("message", JString "File downloaded successfully");
                   ("file",
                    JString
                      (filename_of (Unix t) r (download_ext objectName)))]
            end]
           [match (Copy body w4).1 with
            | Some err => "Failed to send file to client: " +:+ Error err
            | None =>
                "File downloaded successfully: "
                +:+ filename_of (Unix t) r (download_ext objectName)
            end]).
Proof.
  intros Hmeta Hget. unfold handle_download, serve, start.
  unfold mbind at 1, M_bind at 1, bind at 1.
  unfold bucket_GetObjectMeta, bucket. cbn [world calls out logs].
  rewrite Hmeta.
  unfold mbind at 1, M_bind at 1, bind at 1.
  unfold bucket_GetObject, bucket. cbn [world calls out logs].
  rewrite Hget.
  unfold mbind at 1, M_bind at 1, bind at 1.
  match goal with
  | |- context [generateRandomFilename ?e ?s] =>
      destruct (generateRandomFilename_run Intn_range e s)
        as (t & r & w3 & w4 & Hrun & Hnow & Hlen & _)
  end.
  rewrite Hrun. cbn [world calls out logs app].
  unfold_M. cbn [world calls out logs app].
  exists t, r, w3, w4. split; [done|]. split; [done|].
  unfold filename_of.
  by destruct (Copy body w4) as [[err|] w5].
Qed.

(** X2. A download whose two fetches succeed sets its three headers, copies
    the body, and then still writes one JSON object behind the body: 200
    with the very file name of the Content-Disposition header when the copy
    went through, 500 when it failed. *)
Theorem download_writes_json_after_body (objectName : string) (w w1 w2 : W)
    (meta : Header) (body : string) :
  GetObjectMeta objectName w = (Ok meta, w1) →
  GetObject objectName w1 = (Ok body, w2) →
  ∃ filename ctype clen copied,
    (serve (handle_download objectName) w).1 = Done ()
    ∧ out (serve (handle_download objectName) w).2 =
        [SetHeader "Content-Disposition" ("attachment; filename=" +:+ filename);
         SetHeader "Content-Type" ctype;
         SetHeader "Content-Length" clen;
         WriteBody body copied;
         match copied with
         | Some _ =>
             SendJSON 500
               [("message", JString "Failed to send file to client")]
         | None =>
             SendJSON 200
               [("message", JString "File downloaded successfully");
                ("file", JString filename)]
         end].
Proof.
  intros Hmeta Hget.
  destruct (handle_download_full_run _ _ _ _ _ _ Hmeta Hget)
    as (t & r & w3 & w4 & _ & _ & ->).
  by eexists _, _, _, _.
Qed.

(** X4. Whatever the object, the Content-Length header of a download whose
    two fetches succeed is not the decimal rendering of any integer. *)
Theorem content_length_is_never_a_number (objectName : string) (w w1 w2 : W)
    (meta : Header) (body : string) (n : Z) :
  GetObjectMeta objectName w = (Ok meta, w1) →
  GetObject objectName w1 = (Ok body, w2) →
  header_set "Content-Length" (out (serve (handle_download objectName) w).2)
  ≠ Some (Sprintf_d_int64 n).
Proof.
  intros Hmeta Hget.
  destruct (handle_download_full_run _ _ _ _ _ _ Hmeta Hget)
    as (t & r & w3 & w4 & _ & _ & ->).
  cbn [snd out]. unfold header_set.
  destruct (Copy body w4).1; cbn; intros [= Heq];
    pose proof (Sprintf_d_int64_decimal n) as Hdec;
    rewrite <- Heq in Hdec; discriminate.
Qed.

End DownloadRuns.

Section DownloadEdges.
Context {W : Type} `{!Env W}.

Lemma handle_download_no_metadata (objectName : string) (w w1 : W)
    (err : error) :
  GetObjectMeta objectName w = (Err err, w1) →
  serve (handle_download objectName) w =
    (Done (),
     mkState w1 [CallGetObjectMeta objectName] [metadata_failure]
       ["Failed to get object metadata: " +:+ Error err]).
Proof.
  intros Hmeta. unfold handle_download. unfold_M.
  cbn [world calls out logs]. by rewrite Hmeta.
Qed.

(** X1. When the metadata query fails - for a missing key as for any other
    reason - the download answers 500 "Failed to get object metadata",
    never 404; it sets no header, writes no body and does not ask for the
    content. *)
Theorem download_of_unreadable_metadata (objectName : string) (w w1 : W)
    (err : error) :
  GetObjectMeta objectName w = (Err err, w1) →
  serve (handle_download objectName) w =
    (Done (),
     mkState w1 [CallGetObjectMeta objectName] [metadata_failure]
       ["Failed to get object metadata: " +:+ Error err]).
Proof.
  exact (handle_download_no_metadata objectName w w1 err).
Qed.

(** The response actions of a download that got its metadata are either
    none at all or begin with a header. *)
Lemma download_past_metadata (objectName : string) (w w1 : W)
    (meta : Header) :
  GetObjectMeta objectName w = (Ok meta, w1) →
  out (serve (handle_download objectName) w).2 = []
  ∨ ∃ k v rest,
      out (serve (handle_download objectName) w).2 = SetHeader k v :: rest.
Proof.
  intros Hmeta.
  cut (∃ acts, out (serve (handle_download objectName) w).2 = acts
               ∧ (acts = [] ∨ ∃ k v rest, acts = SetHeader k v :: rest)).
  { by intros (acts & -> & Hacts). }
  unfold handle_download. unfold_M. cbn [world calls out logs].
  rewrite Hmeta. cbn [world calls out logs].
  destruct (GetObject objectName w1) as [[body|err] w2];
    [|eexists; split; [reflexivity|by left]].
  match goal with
  | |- context [generateRandomFilename ?e ?t] =>
      destruct (generateRandomFilename_frame e t) as [_ Hout];
      destruct (generateRandomFilename e t) as [[name| | |] s1]
  end; destruct s1 as [w4 c4 o4 l4]; cbn [snd out] in Hout; subst o4;
    try (eexists; split; [reflexivity|by left]).
  cbn [world calls out logs].
  destruct (Copy body w4) as [[err|] w5];
    (eexists; split; [reflexivity|right; by eexists _, _, _]).
Qed.

(** X5. The existence check and the download read the same metadata: on one
    world, the check says "exists" exactly when the download does not answer
    "Failed to get object metadata". *)
Theorem isexist_agrees_with_download (name : string) (w : W) :
  out (serve (handle_isexist name) w).2 = [says_exists name]
  ↔ out (serve (handle_download name) w).2 ≠ [metadata_failure].
Proof.
  destruct (handle_isexist_serve name w) as (act & -> & Hact).
  cbn [snd out].
  destruct (GetObjectMeta name w) as [[meta|err] w1] eqn:Hmeta;
    cbn [fst] in Hact.
  - inversion Hact; subst. split; [intros _|done].
    destruct (download_past_metadata name w w1 meta Hmeta)
      as [->|(k & v & rest & ->)]; done.
  - rewrite (handle_download_no_metadata name w w1 err Hmeta).
    cbn [snd out]. split; [|done]. intros Hsays. exfalso.
    inversion Hact as [|e Hcode| | |]; subst; try discriminate.
    unfold says_exists in Hsays. injection Hsays as Hmsg.
    apply (inj (String.append _)) in Hmsg.
    apply (inj (String.append _)) in Hmsg. discriminate.
Qed.

End DownloadEdges.

(** ** Handlers in sequence *)

Section Sequences.
Context {W : Type} `{!Env W}.
Hypothesis Intn_range : ∀ n w, 0 < n → 0 ≤ (Intn n w).1 < n.

(** The store laws used here: what was put is there to be queried and then
    fetched; what was deleted has no metadata. *)
Hypothesis put_then_fetch : ∀ k v w w',
  PutObject k v w = (None, w') →
  ∃ meta w1 w2,
    GetObjectMeta k w' = (Ok meta, w1) ∧ GetObject k w1 = (Ok v, w2).
Hypothesis delete_then_no_meta : ∀ k w w',
  DeleteObject k w = (None, w') → ∃ err, (GetObjectMeta k w').1 = Err err.

(** X3. After a successful upload, the download of the uploaded file's name
    ends normally and the one body it copies to the client is the uploaded
    content, byte for byte. *)
Theorem upload_then_download_returns_bytes (req : Request) (fh : FileHeader)
    (w : W) :
  first_file req "file" = Some fh →
  let up := serve (handle_upload req) w in
  let dl := serve (handle_download (Filename fh)) (world up.2) in
  responded up [upload_ok] →
  dl.1 = Done () ∧ omap body_of (out dl.2) = [content fh].
Proof.
  intros Hfirst up dl Hup.
  destruct (handle_upload_success req w Hup)
    as (fh' & w1 & w2 & Hfirst' & _ & _ & Hput & _).
  rewrite Hfirst in Hfirst'. injection Hfirst' as <-.
  destruct (put_then_fetch _ _ _ _ Hput) as (meta & w3 & w4 & Hmeta & Hget).
  destruct (handle_download_full_run Intn_range _ _ _ _ _ _ Hmeta Hget)
    as (t & r & w5 & w6 & _ & _ & Hrun).
  unfold dl, up. rewrite Hrun. cbn [fst snd out]. split; [done|].
  by destruct (Copy (content fh) w6).1.
Qed.

(** X7. After a successful delete, the download of the deleted key answers
    500 "Failed to get object metadata" after its metadata query alone. *)
Theorem delete_then_download_fails (objectName : string) (w : W) :
  let del := serve (handle_delete objectName) w in
  let dl := serve (handle_download objectName) (world del.2) in
  responded del [delete_ok objectName] →
  dl.1 = Done ()
  ∧ calls dl.2 = [CallGetObjectMeta objectName]
  ∧ out dl.2 = [metadata_failure].
Proof.
  intros del dl Hdel.
  pose proof (handle_delete_success objectName w Hdel) as Hdelete.
  destruct (delete_then_no_meta _ _ _ Hdelete) as [err Herr].
  unfold dl, del in *.
  destruct (GetObjectMeta objectName
              (world (serve (handle_delete objectName) w).2))
    as [r w1] eqn:Hmeta.
  cbn [fst] in Herr. subst r.
  by rewrite (handle_download_no_metadata _ _ _ _ Hmeta).
Qed.

End Sequences.

(** ** Answers of the existence check *)

Lemma list_ascii_of_string_app (a b : string) :
  String.list_ascii_of_string (a +:+ b)
  = String.list_ascii_of_string a ++ String.list_ascii_of_string b.
Proof.
  induction a as [|x a IH]; [done|].
  change (String x a +:+ b) with (String x (a +:+ b)).
  cbn [String.list_ascii_of_string]. by rewrite IH.
Qed.

Lemma last_char_of_app (a b : string) (c : ascii) :
  last (String.list_ascii_of_string (a +:+ b +:+ String c ""))
  = Some c.
Proof.
  rewrite !list_ascii_of_string_app, !app_assoc.
  cbn [String.list_ascii_of_string]. apply last_snoc.
Qed.

(** X6. The two 200 answers of the existence check never coincide, whatever
    the two keys are: no "exists" message is a "does not exist" message. *)
Theorem existence_messages_never_coincide (name1 name2 : string) :
  says_exists name1 ≠ says_missing name2.
Proof.
  unfold says_exists, says_missing. intros [= Hmsg].
  apply (inj (String.append "")) in Hmsg.
  apply (f_equal (λ s, last (String.list_ascii_of_string s))) in Hmsg.
  change (name1 +:+ "' exists")
    with (name1 +:+ "' exist" +:+ String "s" "") in Hmsg.
  change (name2 +:+ "' does not exist")
    with (name2 +:+ "' does not exis" +:+ String "t" "") in Hmsg.
  rewrite !last_char_of_app in Hmsg. discriminate.
Qed.

(** ** Handlers that keep the process alive *)

Section RequestScoped.
Context {W : Type} `{!Env W}.
Variable encode_reader : string → JVal.

Lemma handle_invertcode_run (audio : string) (w : W) :
  serve (handle_invertcode encode_reader audio) w =
    match (GetObject audio w).1 with
    | Err err =>
        (Done (),
         mkState (GetObject audio w).2 [CallGetObject audio]
           [SendJSON 500
              [("status", JString "error");
               ("message", JString "Failed to get object")]]
           ["Error getting object: " +:+ Error err])
    | Ok object =>
        (Done (),
         mkState (GetObject audio w).2 [CallGetObject audio]
           [SendJSON 200
              [("message", JString "invertcode success");
               ("file", encode_reader object)]]
           [])
    end.
Proof.
  unfold handle_invertcode. unfold_M. cbn [world calls out logs].
  by destruct (GetObject audio w) as [[object|err] w1].
Qed.

(** X8. The existence check, the delete, the placeholder route and the
    greeting route never end the process and never panic: in every world
    each of them ends normally after exactly one response, a JSON one. *)
Theorem request_scoped_handlers_stay_alive (name : string) (w : W) :
  let answered (r : Outcome unit * State W) :=
    r.1 = Done () ∧ ∃ code obj, out r.2 = [SendJSON code obj] in
  answered (serve (handle_isexist name) w)
  ∧ answered (serve (handle_delete name) w)
  ∧ answered (serve (handle_invertcode encode_reader name) w)
  ∧ answered (serve handle_root w).
Proof.
  cbn zeta. repeat split.
  - by destruct (handle_isexist_serve name w) as (act & -> & _).
  - destruct (handle_isexist_serve name w) as (act & -> & Hact).
    destruct Hact; eexists _, _; reflexivity.
  - unfold serve. by rewrite handle_delete_run.
  - unfold serve. rewrite handle_delete_run.
    cbn [snd out start app world].
    destruct (DeleteObject name w).1; eexists _, _; reflexivity.
  - rewrite handle_invertcode_run. by destruct (GetObject name w).1.
  - rewrite handle_invertcode_run.
    destruct (GetObject name w).1; eexists _, _; reflexivity.
  - eexists _, _; reflexivity.
Qed.


(** X9. The delete makes one bucket call, the delete of the key as given,
    without looking the key up first; it answers 200 exactly when that call
    returned no error, and otherwise 500 with the error's text. *)
Theorem delete_status_mapping (objectName : string) (w : W) :
  let r := serve (handle_delete objectName) w in
  calls r.2 = [CallDeleteObject objectName]
  ∧ world r.2 = (DeleteObject objectName w).2
  ∧ (out r.2 = [delete_ok objectName] ↔ (DeleteObject objectName w).1 = None)
  ∧ ∀ err, (DeleteObject objectName w).1 = Some err →
           out r.2 =
             [SendJSON 500
                [("status", JString "error");
                 ("message",
                  JString ("Failed to delete object: " +:+ Error err))]].
Proof.
  cbn zeta. unfold serve. rewrite handle_delete_run.
  cbn [snd calls world out start app]. split; [done|]. split; [done|].
  destruct (DeleteObject objectName w).1 as [err|]; split; try done.
  by intros ? [= <-].
Qed.

End RequestScoped.

(** ** Every run of the upload *)

Section UploadRuns.
Context {W : Type} `{!Env W}.

(** X10. An upload whose body is not a multipart form, or whose first file
    cannot be opened when the form is read, is answered 400 "Failed to get
    file" with the error's text in the log; the bucket is not called. *)
Theorem upload_refused_without_store_call (req : Request) (w w1 : W)
    (err : error) :
  form_file_refused req "file" w err w1 →
  serve (handle_upload req) w =
    (Done (),
     mkState w1 []
       [SendJSON 400 [("message", JString "Failed to get file")]]
       ["Failed to get file from form: " +:+ Error err]).
Proof.
  inversion 1 as [? ? ? ? Hform|? ? ? fh ? ? Hfirst Hopen]; subst.
  - unfold handle_upload, c_FormFile. rewrite Hform. reflexivity.
  - rewrite (handle_upload_run req fh w Hfirst). cbn zeta.
    by rewrite Hopen.
Qed.

(** X11. Every run of the upload is one of four: refused with 400 before any
    bucket call; ended fatally before any bucket call; ended fatally after
    the one put; or answered 200 after the one put.  The put, when there is
    one, is of the first file under its own name, and the upload never
    reads, lists or deletes. *)
Theorem upload_outcomes (req : Request) (w : W) :
  let r := serve (handle_upload req) w in
  (r.1 = Done () ∧ calls r.2 = []
   ∧ out r.2 = [SendJSON 400 [("message", JString "Failed to get file")]])
  ∨ (∃ msg, r.1 = Fatal msg ∧ calls r.2 = [] ∧ out r.2 = [])
  ∨ (∃ fh msg,
       first_file req "file" = Some fh
       ∧ r.1 = Fatal msg
       ∧ calls r.2 = [CallPutObject (Filename fh) (content fh)]
       ∧ out r.2 = [])
  ∨ (∃ fh,
       first_file req "file" = Some fh
       ∧ r.1 = Done ()
       ∧ calls r.2 = [CallPutObject (Filename fh) (content fh)]
       ∧ out r.2 = [upload_ok]).
Proof.
  cbn zeta. destruct (first_file req "file") as [fh|] eqn:Hfirst.
  - rewrite (handle_upload_run req fh w Hfirst). cbn zeta.
    destruct (Open fh w).1; [by left|].
    destruct (Open fh (Open fh w).2).1;
      [right; left; eexists; repeat split; reflexivity|].
    destruct (PutObject _ _ _).1.
    + right; right; left. eexists _, _. repeat split; reflexivity.
    + right; right; right. eexists. repeat split; reflexivity.
  - left.
    destruct (c_FormFile_none req "file" (start w) Hfirst) as [err Herr].
    unfold handle_upload, serve, mbind, M_bind, bind.
    rewrite Herr. repeat split; reflexivity.
Qed.

(** X12. Only the first file under ["file"] counts: two multipart requests
    whose forms agree on it are served alike, whatever else they carry. *)
Theorem upload_reads_first_file_only (req1 req2 : Request)
    (form1 form2 : gmap string (list FileHeader)) (w : W) :
  MultipartForm req1 = Ok form1 →
  MultipartForm req2 = Ok form2 →
  first_file req1 "file" = first_file req2 "file" →
  serve (handle_upload req1) w = serve (handle_upload req2) w.
Proof.
  intros Hform1 Hform2 Hsame.
  destruct (first_file req2 "file") as [fh|] eqn:Hfirst2.
  - by rewrite (handle_upload_run req1 fh w Hsame),
      (handle_upload_run req2 fh w Hfirst2).
  - assert (∀ req form, MultipartForm req = Ok form →
                        first_file req "file" = None →
                        lacks_field req "file") as Hlacks.
    { intros req form Hform Hnone. exists form. split; [done|].
      unfold first_file in Hnone. rewrite Hform in Hnone.
      by destruct (form !! "file") as [[|? ?]|]. }
    unfold handle_upload, serve, mbind, M_bind, bind.
    by rewrite !c_FormFile_lacks by eauto.
Qed.

End UploadRuns.

(** ** Every run of the listing *)

Section ListingRuns.
Context {W : Type} `{!Env W}.

Lemma list_loop_outcomes (fuel : nat) :
  ∀ (acc : list string) (m : string) (s : State W),
  let r := list_loop fuel acc m s in
  (∃ pre final,
     Forall (λ p, IsTruncated p = true) pre
     ∧ IsTruncated final = false
     ∧ answers (world s) (markers m pre) (Ok <$> (pre ++ [final]))
         (world r.2)
     ∧ r.1 = Done (acc ++ page_keys (pre ++ [final])))
  ∨ (∃ pre err,
       Forall (λ p, IsTruncated p = true) pre
       ∧ answers (world s) (markers m pre) ((Ok <$> pre) ++ [Err err])
           (world r.2)
       ∧ r.1 = Fatal ("Failed to list objects: " +:+ Error err))
  ∨ (∃ pre,
       Forall (λ p, IsTruncated p = true) pre
       ∧ length pre = fuel
       ∧ answers (world s) (take fuel (markers m pre)) (Ok <$> pre)
           (world r.2)
       ∧ r.1 = OutOfFuel).
Proof.
  induction fuel as [|fuel IH]; intros acc m s; cbn zeta.
  - right; right. exists []. cbn. repeat split; [constructor..|].
    constructor.
  - cbn [list_loop]. unfold_M. cbn [world calls out logs].
    destruct (ListObjects m (world s)) as [[p|err] w1] eqn:Hlist.
    + destruct (IsTruncated p) eqn:Hp.
      * match goal with
        | |- context [list_loop fuel ?a ?k ?t] =>
            destruct (IH a k t)
              as [(pre & final & Hpre & Hfinal & Hans & Hdone)
                 |[(pre & err & Hpre & Hans & Hfatal)
                  |(pre & Hpre & Hlen & Hans & Hout)]];
            destruct (list_loop fuel a k t) as [o s1]
        end; cbn [fst snd world] in *; subst o.
        -- left. exists (p :: pre), final.
           split; [by constructor|]. split; [done|].
           split; [by econstructor|].
           unfold page_keys. cbn. by rewrite <- app_assoc.
        -- right; left. exists (p :: pre), err.
           split; [by constructor|]. split; [by econstructor|done].
        -- right; right. exists (p :: pre).
           split; [by constructor|]. split; [by cbn; rewrite Hlen|].
           split; [|done]. cbn [take markers fmap list_fmap].
           by econstructor.
      * left. exists [], p. cbn [fst snd world].
        split; [constructor|]. split; [done|].
        split; [econstructor; [done|constructor]|].
        unfold page_keys. cbn. by rewrite app_nil_r.
    + right; left. exists [], err. cbn [fst snd world].
      split; [constructor|]. split; [|done].
      econstructor; [done|constructor].
Qed.

(** X13. Every run of the list handler is one of three.  It ends normally:
    the store served truncated pages and then an untruncated one, and the
    one response is 200 with the keys of all of them.  It ends fatally: the
    store served truncated pages and then an error, and nothing was sent.
    Or it is still running after [fuel] truncated pages, with nothing sent.
    No run panics, and no run sends a partial listing. *)
Theorem list_outcomes (fuel : nat) (w : W) :
  let r := serve (handle_list fuel) w in
  (∃ pre final,
     Forall (λ p, IsTruncated p = true) pre
     ∧ IsTruncated final = false
     ∧ answers w (markers "" pre) (Ok <$> (pre ++ [final])) (world r.2)
     ∧ r.1 = Done ()
     ∧ out r.2 = [list_ok (page_keys (pre ++ [final]))])
  ∨ (∃ pre err,
       Forall (λ p, IsTruncated p = true) pre
       ∧ answers w (markers "" pre) ((Ok <$> pre) ++ [Err err]) (world r.2)
       ∧ r.1 = Fatal ("Failed to list objects: " +:+ Error err)
       ∧ out r.2 = [])
  ∨ (∃ pre,
       Forall (λ p, IsTruncated p = true) pre
       ∧ length pre = fuel
       ∧ answers w (take fuel (markers "" pre)) (Ok <$> pre) (world r.2)
       ∧ r.1 = OutOfFuel
       ∧ out r.2 = []).
Proof.
  cbn zeta.
  destruct (list_loop_trace fuel [] "" (start w)) as (_ & _ & _ & _ & Hout).
  pose proof (list_loop_outcomes fuel [] "" (start w)) as Hcases.
  cbn zeta in Hcases. unfold handle_list, serve, mbind, M_bind, bind.
  destruct (list_loop fuel [] "" (start w)) as [o s1].
  destruct s1 as [w1 c1 o1 l1]. cbn [fst snd world out start] in *.
  subst o1.
  destruct Hcases as [(pre & final & Hpre & Hfinal & Hans & ->)
                     |[(pre & err & Hpre & Hans & ->)
                      |(pre & Hpre & Hlen & Hans & ->)]].
  - left. exists pre, final. by repeat split.
  - right; left. exists pre, err. by repeat split.
  - right; right. exists pre. by repeat split.
Qed.

(** X14. On a store that answers every listing query with a truncated
    page, the list handler never ends: whatever the number of pages it is
    allowed, it has asked for that many, is still running, and has sent
    nothing. *)
Theorem list_never_ends_while_truncated (fuel : nat) (w : W) :
  (∀ m w0, ∃ p w1, ListObjects m w0 = (Ok p, w1) ∧ IsTruncated p = true) →
  let r := serve (handle_list fuel) w in
  r.1 = OutOfFuel ∧ length (calls r.2) = fuel ∧ out r.2 = [].
Proof.
  intros Hendless. cbn zeta.
  assert (∀ n acc m (s : State W),
            (list_loop n acc m s).1 = OutOfFuel
            ∧ length (calls (list_loop n acc m s).2)
              = (length (calls s) + n)%nat
            ∧ out (list_loop n acc m s).2 = out s) as Hloop.
  { induction n as [|n IH]; intros acc m s.
    - cbn. by rewrite Nat.add_0_r.
    - cbn [list_loop]. unfold_M. cbn [world calls out logs].
      destruct (Hendless m (world s)) as (p & w1 & -> & ->).
      match goal with
      | |- context [list_loop n ?a ?k ?t] =>
          destruct (IH a k t) as (Ho & Hc & Hout)
      end.
      split; [exact Ho|]. split; [|exact Hout].
      rewrite Hc. cbn [calls]. rewrite length_app. cbn. lia. }
  destruct (Hloop fuel [] "" (start w)) as (Ho & Hc & Hout).
  unfold handle_list, serve, mbind, M_bind, bind.
  destruct (list_loop fuel [] "" (start w)) as [o s1].
  cbn [fst snd] in *. subst o. by cbn in *.
Qed.

End ListingRuns.

(** ** File names, read back *)

Lemma split_at_underscore (a1 : string) :
  ∀ a2 b1 b2,
  forallb is_decimal_char (String.list_ascii_of_string a1) = true →
  forallb is_decimal_char (String.list_ascii_of_string a2) = true →
  a1 +:+ "_" +:+ b1 = a2 +:+ "_" +:+ b2 →
  a1 = a2 ∧ b1 = b2.
Proof.
  induction a1 as [|x a1 IH]; intros [|y a2] b1 b2 H1 H2 Heq.
  - change (String "_" b1 = String "_" b2) in Heq. by injection Heq.
  - exfalso.
    change (String "_" b1 = String y (a2 +:+ "_" +:+ b2)) in Heq.
    injection Heq as Hy Hrest. subst y. cbn in H2. discriminate.
  - exfalso.
    change (String x (a1 +:+ "_" +:+ b1) = String "_" b2) in Heq.
    injection Heq as Hx Hrest. subst x. cbn in H1. discriminate.
  - change (String x (a1 +:+ "_" +:+ b1) = String y (a2 +:+ "_" +:+ b2))
      in Heq.
    injection Heq as -> Heq.
    cbn [String.list_ascii_of_string forallb] in H1, H2.
    apply andb_true_iff in H1 as [_ H1]. apply andb_true_iff in H2 as [_ H2].
    destruct (IH a2 b1 b2 H1 H2 Heq) as [-> ->]. done.
Qed.

Lemma split_at_length (r1 : string) :
  ∀ r2 e1 e2,
  String.length r1 = String.length r2 →
  r1 +:+ e1 = r2 +:+ e2 → r1 = r2 ∧ e1 = e2.
Proof.
  induction r1 as [|x r1 IH]; intros [|y r2] e1 e2 Hlen Heq;
    try discriminate.
  - by change (e1 = e2) in Heq.
  - change (String x (r1 +:+ e1) = String y (r2 +:+ e2)) in Heq.
    injection Heq as -> Heq. cbn in Hlen.
    destruct (IH r2 e1 e2 ltac:(lia) Heq) as [-> ->]. done.
Qed.

(** A file name determines its parts, when the random parts have one
    length. *)
Lemma filename_of_inj (t1 t2 : Z) (r1 r2 ext1 ext2 : string) :
  String.length r1 = String.length r2 →
  filename_of t1 r1 ext1 = filename_of t2 r2 ext2 →
  t1 = t2 ∧ r1 = r2 ∧ ext1 = ext2.
Proof.
  unfold filename_of. intros Hlen Heq.
  apply split_at_underscore in Heq as [Ht Hrest];
    [|apply Sprintf_d_int64_decimal..].
  apply (inj pretty) in Ht.
  apply split_at_length in Hrest as [-> ->]; done.
Qed.

Section FilenameRuns.
Context {W : Type} `{!Env W}.

Lemma random_chars_outcome (n : nat) :
  ∀ (acc : string) (s : State W),
  (∃ name, (random_chars n acc s).1 = Done name)
  ∨ (random_chars n acc s).1 = Panic "index out of range".
Proof.
  induction n as [|n IH]; intros acc s; [left; by eexists|].
  cbn [random_chars]. unfold_M.
  destruct (Intn _ (world s)) as [i w1].
  unfold charset_at. destruct (decide (0 ≤ i)%Z); [|by right].
  destruct (String.get (Z.to_nat i) charset) as [c|]; [|by right].
  unfold_M. apply IH.
Qed.

(** X16. Generating a file name is silent: it calls the bucket for nothing
    and writes nothing to the response, and it either returns a name or
    panics on the index into the character set - which is all it can do
    when the random generator leaves its range. *)
Theorem filename_generation_is_silent (ext : string) (s : State W) :
  let r := generateRandomFilename ext s in
  calls r.2 = calls s
  ∧ out r.2 = out s
  ∧ ((∃ name, r.1 = Done name) ∨ r.1 = Panic "index out of range").
Proof.
  cbn zeta.
  destruct (generateRandomFilename_frame ext s) as [Hcalls Hout].
  split; [exact Hcalls|]. split; [exact Hout|].
  unfold generateRandomFilename. unfold_M.
  destruct (Now (world s)) as [t0 w1]. cbn -[random_chars].
  match goal with
  | |- context [random_chars 10 ?a ?t] =>
      destruct (random_chars_outcome 10 a t) as [[name Hname]|Hpanic];
      destruct (random_chars 10 a t) as [o s1]
  end; cbn [fst] in *; subst o; [|by right].
  left. destruct (Now (world s1)). by eexists.
Qed.

Hypothesis Intn_range : ∀ n w, 0 < n → 0 ≤ (Intn n w).1 < n.

(** X15. A generated name can be read back: two generated names are equal
    only if they carry the same second, the same ten random characters and
    the same extension. *)
Theorem generated_names_are_injective (ext1 ext2 : string)
    (s1 s2 : State W) :
  ∃ t1 r1 t2 r2,
    (generateRandomFilename ext1 s1).1 = Done (filename_of t1 r1 ext1)
    ∧ (generateRandomFilename ext2 s2).1 = Done (filename_of t2 r2 ext2)
    ∧ (filename_of t1 r1 ext1 = filename_of t2 r2 ext2 →
       t1 = t2 ∧ r1 = r2 ∧ ext1 = ext2).
Proof.
  destruct (generateRandomFilename_run Intn_range ext1 s1)
    as (t1 & r1 & wa & wb & -> & _ & Hlen1 & _).
  destruct (generateRandomFilename_run Intn_range ext2 s2)
    as (t2 & r2 & wc & wd & -> & _ & Hlen2 & _).
  exists (Unix t1), r1, (Unix t2), r2. split; [done|]. split; [done|].
  apply filename_of_inj. by rewrite Hlen1, Hlen2.
Qed.

End FilenameRuns.

(** ** The resolved extension *)

Lemma string_get_lt (s : string) :
  ∀ k c, String.get k s = Some c → (k < String.length s)%nat.
Proof.
  induction s as [|a s IH]; intros [|k] c Hget; cbn in *; try done; [lia|].
  apply IH in Hget. lia.
Qed.

Lemma substring_cons (s : string) :
  ∀ j c, String.get j s = Some c →
         String.substring j (String.length s - j) s
         = String c (String.substring (S j) (String.length s - S j) s).
Proof.
  induction s as [|a s IH]; intros [|j] c Hget; cbn in Hget; try done.
  - injection Hget as ->. cbn [String.length String.substring Nat.sub].
    by rewrite Nat.sub_0_r.
  - cbn [String.length String.substring Nat.sub]. by apply IH.
Qed.

Lemma substring_chars (P : ascii → Prop) (s : string) :
  ∀ j, (∀ k c, (j ≤ k)%nat → String.get k s = Some c → P c) →
       Forall P (String.list_ascii_of_string
                   (String.substring j (String.length s - j) s)).
Proof.
  induction s as [|a s IH]; intros j HP.
  - destruct j; constructor.
  - destruct j as [|j].
    + cbn [String.length String.substring Nat.sub
             String.list_ascii_of_string].
      constructor; [by apply (HP 0%nat)|].
      specialize (IH 0%nat). rewrite Nat.sub_0_r in IH. apply IH.
      intros k c _ Hget. apply (HP (S k)); [lia|done].
    + cbn [String.length String.substring Nat.sub]. apply IH.
      intros k c Hk Hget. apply (HP (S k)); [lia|done].
Qed.

Section ResolvedExtension.
Context {W : Type} `{!Env W}.

Lemma Ext_loop_one_dot (path : string) (i : nat) :
  (∀ k c, (i ≤ k)%nat → String.get k path = Some c → c ≠ "."%char) →
  Ext_loop path i = ""
  ∨ ∃ rest,
      Ext_loop path i = String "." rest
      ∧ Forall (λ c, c ≠ "."%char) (String.list_ascii_of_string rest).
Proof.
  induction i as [|j IH]; intros Hinv; cbn [Ext_loop]; [by left|].
  destruct (String.get j path) as [c|] eqn:Hget; [|by left].
  destruct (IsPathSeparator c); [by left|].
  destruct (Ascii.eqb_spec c ".") as [->|Hne].
  - right. rewrite (substring_cons _ _ _ Hget). eexists. split; [done|].
    apply substring_chars. intros k c Hk. apply Hinv. lia.
  - apply IH. intros k c' Hk Hget'.
    destruct (decide (k = j)) as [->|]; [congruence|].
    apply (Hinv k); [lia|done].
Qed.

(** X18. The extension a download resolves for a key always begins with a
    dot and holds no other dot: it is the part of the key from its last dot
    on - so the key's last characters - or [.bin] when [filepath.Ext] finds
    none. *)
Theorem resolved_extension_shape (objectName : string) :
  ∃ rest,
    download_ext objectName = String "." rest
    ∧ Forall (λ c, c ≠ "."%char) (String.list_ascii_of_string rest)
    ∧ (if String.eqb (Ext objectName) ""
       then download_ext objectName = ".bin"
       else has_suffix (download_ext objectName) objectName).
Proof.
  unfold download_ext.
  destruct (String.eqb_spec (Ext objectName) "") as [Hnone|Hsome].
  - exists "bin". split; [done|]. split; [|done].
    repeat constructor; discriminate.
  - destruct (Ext_loop_one_dot objectName (String.length objectName))
      as [Hempty|(rest & Hrest & Hdots)].
    + intros k c Hk Hget. apply string_get_lt in Hget. lia.
    + done.
    + exists rest. split; [exact Hrest|]. split; [exact Hdots|].
      apply Ext_suffix.
Qed.

End ResolvedExtension.

(** ** The template of the settings file *)

Section EnvFile.
Context {F : Type} `{!FileSystem F}.

(** Every run of [createEnvFileIfNotExist], by what the file system says. *)
Lemma createEnvFileIfNotExist_run (h : Host F) :
  serve createEnvFileIfNotExist h =
    let st := Stat ".env" (fs h) in
    if os_IsNotExist st.1 then
      let wr := WriteFile ".env" envContent 420 st.2 in
      match wr.1 with
      | Some err =>
          (Fatal ("Failed to create .env file: " +:+ os_text err),
           mkState (mkHost wr.2 (stdout h)) [] []
             ["Failed to create .env file: " +:+ os_text err])
      | None =>
          (Done (),
           mkState
             (mkHost wr.2
                (stdout h ++ [".env file created with default values."]))
             [] [] [])
      end
    else
      (Done (),
       mkState (mkHost st.2 (stdout h ++ [".env file already exists."]))
         [] [] []).
Proof.
  unfold createEnvFileIfNotExist, os_Stat, os_WriteFile, fmt_Println.
  unfold_M. cbn [world calls out logs]. cbn zeta.
  destruct (Stat ".env" (fs h)) as [e f1]. cbn [fst snd].
  destruct (os_IsNotExist e); [|done]. cbn [world calls out logs fs stdout].
  by destruct (WriteFile ".env" envContent 420 f1) as [[err|] f2].
Qed.

Lemma createEnvFileIfNotExist_present (h : Host F) :
  os_IsNotExist (Stat ".env" (fs h)).1 = false →
  serve createEnvFileIfNotExist h =
    (Done (),
     mkState
       (mkHost (Stat ".env" (fs h)).2
          (stdout h ++ [".env file already exists."]))
       [] [] []).
Proof.
  intros Hthere. rewrite createEnvFileIfNotExist_run. cbn zeta.
  by rewrite Hthere.
Qed.

(** X19. The settings file is written only when [os.Stat] reports that it
    does not exist.  On any other answer - the file is there, or the stat
    failed for another reason - nothing is written, the process goes on,
    and the one line printed says the file already exists. *)
Theorem env_file_left_alone (h : Host F) :
  os_IsNotExist (Stat ".env" (fs h)).1 = false →
  serve createEnvFileIfNotExist h =
    (Done (),
     mkState
       (mkHost (Stat ".env" (fs h)).2
          (stdout h ++ [".env file already exists."]))
       [] [] []).
Proof.
  exact (createEnvFileIfNotExist_present h).
Qed.

(** X20. When the file is reported missing and cannot be written, the
    process ends with "Failed to create .env file" and its error, having
    printed nothing. *)
Theorem env_file_write_failure_is_fatal (h : Host F) (f1 f2 : F)
    (missing err : os_error) :
  Stat ".env" (fs h) = (Some missing, f1) →
  os_not_exist missing = true →
  WriteFile ".env" envContent 420 f1 = (Some err, f2) →
  serve createEnvFileIfNotExist h =
    (Fatal ("Failed to create .env file: " +:+ os_text err),
     mkState (mkHost f2 (stdout h)) [] []
       ["Failed to create .env file: " +:+ os_text err]).
Proof.
  intros Hstat Hmissing Hwrite. rewrite createEnvFileIfNotExist_run.
  cbn zeta. rewrite Hstat. cbn [fst snd os_IsNotExist].
  rewrite Hmissing, Hwrite. done.
Qed.

(** Two laws of a file system nobody else writes to: asking twice gives one
    answer, and a file just written is there. *)
Hypothesis stat_again : ∀ name f,
  (Stat name (Stat name f).2).1 = (Stat name f).1.
Hypothesis written_is_there : ∀ name data perm f f',
  WriteFile name data perm f = (None, f') → (Stat name f').1 = None.

(** X21. Creating the settings file is idempotent: after a run that ended
    normally, a second run writes nothing - the file system is touched by
    its stat alone - and reports that the file already exists. *)
Theorem env_file_created_once (h : Host F) :
  let first := serve createEnvFileIfNotExist h in
  let second := serve createEnvFileIfNotExist (world first.2) in
  first.1 = Done () →
  second.1 = Done ()
  ∧ fs (world second.2) = (Stat ".env" (fs (world first.2))).2
  ∧ stdout (world second.2)
    = stdout (world first.2) ++ [".env file already exists."].
Proof.
  cbn zeta. intros Hfirst.
  assert (os_IsNotExist
            (Stat ".env"
               (fs (world (serve createEnvFileIfNotExist h).2))).1 = false)
    as Hthere.
  { rewrite createEnvFileIfNotExist_run in Hfirst |- *. cbn zeta in *.
    destruct (os_IsNotExist (Stat ".env" (fs h)).1) eqn:Hmissing.
    - destruct (WriteFile ".env" envContent 420 (Stat ".env" (fs h)).2)
        as [[err|] f2] eqn:Hwrite; [done|].
      cbn [fst snd world fs]. by rewrite (written_is_there _ _ _ _ _ Hwrite).
    - cbn [snd world fs]. by rewrite stat_again. }
  by rewrite (createEnvFileIfNotExist_present _ Hthere).
Qed.

End EnvFile.

(** ** What a download asks of the bucket *)

Section DownloadCalls.
Context {W : Type} `{!Env W}.

(** X22. In every run, whatever the clock, the random generator and the
    client connection do, a download asks the bucket for the metadata
    first, and for the content only when the metadata came back; it makes
    no other bucket call, so it never puts and never deletes. *)
Theorem download_never_mutates (objectName : string) (w : W) :
  let r := serve (handle_download objectName) w in
  calls r.2 =
    match (GetObjectMeta objectName w).1 with
    | Ok _ => [CallGetObjectMeta objectName; CallGetObject objectName]
    | Err _ => [CallGetObjectMeta objectName]
    end
  ∧ Forall (λ c, is_mutation c = false) (calls r.2).
Proof.
  cbn zeta.
  cut (calls (serve (handle_download objectName) w).2 =
         match (GetObjectMeta objectName w).1 with
         | Ok _ => [CallGetObjectMeta objectName; CallGetObject objectName]
         | Err _ => [CallGetObjectMeta objectName]
         end).
  { intros ->. split; [done|].
    destruct (GetObjectMeta objectName w).1; by repeat constructor. }
  unfold handle_download. unfold_M. cbn [world calls out logs].
  destruct (GetObjectMeta objectName w) as [[meta|err] w1]; [|done].
  cbn [world calls out logs fst].
  destruct (GetObject objectName w1) as [[body|err] w2]; [|done].
  match goal with
  | |- context [generateRandomFilename ?e ?t] =>
      destruct (generateRandomFilename_frame e t) as [Hcalls _];
      destruct (generateRandomFilename e t) as [[name| | |] s1]
  end; destruct s1 as [w4 c4 o4 l4]; cbn [snd calls] in Hcalls; subst c4;
    try done.
  cbn [world calls out logs].
  by destruct (Copy body w4) as [[err|] w5].
Qed.

End DownloadCalls.

(** ** Instances on concrete inputs, continued *)

Lemma Mem_put_then_fetch (k v : string) (w w' : Mem.World) :
  PutObject k v w = (None, w') →
  ∃ meta w1 w2,
    GetObjectMeta k w' = (Ok meta, w1) ∧ GetObject k w1 = (Ok v, w2).
Proof.
  cbn. intros [= <-]. eexists _, _, _. split.
  - cbn. rewrite lookup_insert_eq. reflexivity.
  - cbn. by rewrite lookup_insert_eq.
Qed.

Lemma Mem_delete_then_no_meta (k : string) (w w' : Mem.World) :
  DeleteObject k w = (None, w') → ∃ err, (GetObjectMeta k w').1 = Err err.
Proof. cbn. intros [= <-]. cbn. rewrite lookup_delete_eq. by eexists. Qed.

Lemma MemFS_stat_again (name : string) (f : MemFS.World) :
  (Stat name (Stat name f).2).1 = (Stat name f).1.
Proof. done. Qed.

Lemma MemFS_written_is_there (name data : string) (perm : Z)
    (f f' : MemFS.World) :
  WriteFile name data perm f = (None, f') → (Stat name f').1 = None.
Proof.
  cbn. destruct (MemFS.read_only f); [done|]. intros [= <-]. cbn.
  by rewrite lookup_insert_eq.
Qed.

Lemma download_of_a_ghost :
  GetObjectMeta "ghost" Mem.empty = (Err Mem.NoSuchKey, Mem.empty)
  ∧ serve (handle_download "ghost") Mem.empty =
      (Done (),
       mkState Mem.empty [CallGetObjectMeta "ghost"] [metadata_failure]
         ["Failed to get object metadata: " +:+ Error Mem.NoSuchKey]).
Proof.
  split; [reflexivity|].
  exact (download_of_unreadable_metadata "ghost" Mem.empty Mem.empty
           Mem.NoSuchKey eq_refl).
Defined.

Lemma download_of_hello_ends_in_json :
  let w := Sample.bucket_with "a.txt" "hello" in
  ∃ filename ctype clen copied,
    (serve (handle_download "a.txt") w).1 = Done ()
    ∧ out (serve (handle_download "a.txt") w).2 =
        [SetHeader "Content-Disposition" ("attachment; filename=" +:+ filename);
         SetHeader "Content-Type" ctype;
         SetHeader "Content-Length" clen;
         WriteBody "hello" copied;
         match copied with
         | Some _ =>
             SendJSON 500
               [("message", JString "Failed to send file to client")]
         | None =>
             SendJSON 200
               [("message", JString "File downloaded successfully");
                ("file", JString filename)]
         end].
Proof.
  exact (download_writes_json_after_body Mem_Intn_range "a.txt"
           (Sample.bucket_with "a.txt" "hello") _ _ _ _ eq_refl eq_refl).
Defined.

Lemma content_length_of_hello_is_not_5 :
  let w := Sample.bucket_with "a.txt" "hello" in
  header_set "Content-Length" (out (serve (handle_download "a.txt") w).2)
  ≠ Some (Sprintf_d_int64 5).
Proof.
  exact (content_length_is_never_a_number Mem_Intn_range "a.txt"
           (Sample.bucket_with "a.txt" "hello") _ _ _ _ 5 eq_refl eq_refl).
Defined.

Lemma upload_then_download_of_a_txt :
  let up :=
    serve (handle_upload (Sample.form_with "a.txt" "hello")) Mem.empty in
  let dl := serve (handle_download "a.txt") (world up.2) in
  dl.1 = Done () ∧ omap body_of (out dl.2) = ["hello"].
Proof.
  apply (upload_then_download_returns_bytes Mem_Intn_range Mem_put_then_fetch
           (Sample.form_with "a.txt" "hello")
           {| Filename := "a.txt"; content := "hello" |} Mem.empty).
  - reflexivity.
  - split; [by exists ()|reflexivity].
Defined.

Lemma delete_then_download_of_a_txt :
  let w := Sample.bucket_with "a.txt" "hello" in
  let del := serve (handle_delete "a.txt") w in
  let dl := serve (handle_download "a.txt") (world del.2) in
  dl.1 = Done ()
  ∧ calls dl.2 = [CallGetObjectMeta "a.txt"]
  ∧ out dl.2 = [metadata_failure].
Proof.
  apply (delete_then_download_fails Mem_delete_then_no_meta "a.txt"
           (Sample.bucket_with "a.txt" "hello")).
  split; [by exists ()|reflexivity].
Defined.

Lemma upload_of_a_plain_body :
  form_file_refused Sample2.not_multipart "file" Mem.empty
    (errorString "request Content-Type isn't multipart/form-data") Mem.empty
  ∧ serve (handle_upload Sample2.not_multipart) Mem.empty =
      (Done (),
       mkState Mem.empty []
         [SendJSON 400 [("message", JString "Failed to get file")]]
         ["Failed to get file from form: "
          +:+ "request Content-Type isn't multipart/form-data"]).
Proof.
  assert (form_file_refused Sample2.not_multipart "file" Mem.empty
            (errorString "request Content-Type isn't multipart/form-data")
            Mem.empty) as Hrefused.
  { by apply refused_not_multipart. }
  split; [exact Hrefused|].
  exact (upload_refused_without_store_call Sample2.not_multipart
           Mem.empty Mem.empty _ Hrefused).
Defined.

Lemma upload_of_a_crowded_form :
  serve (handle_upload Sample2.crowded_form) Mem.empty
  = serve (handle_upload (Sample.form_with "a.txt" "hello")) Mem.empty.
Proof.
  exact (upload_reads_first_file_only Sample2.crowded_form
           (Sample.form_with "a.txt" "hello") _ _ Mem.empty
           eq_refl eq_refl eq_refl).
Defined.

Lemma list_of_an_endless_bucket :
  let r := serve (handle_list (Env0 := Endless.env) 7) 0%nat in
  r.1 = OutOfFuel ∧ length (calls r.2) = 7%nat ∧ out r.2 = [].
Proof.
  apply (list_never_ends_while_truncated (Env0 := Endless.env) 7 0%nat).
  intros m w0. exists (Endless.next_page w0), (S w0). split; reflexivity.
Defined.

Lemma names_of_two_downloads :
  ∃ t1 r1 t2 r2,
    (generateRandomFilename ".png" (start Mem.empty)).1
    = Done (filename_of t1 r1 ".png")
    ∧ (generateRandomFilename ".bin" (start Mem.empty)).1
      = Done (filename_of t2 r2 ".bin")
    ∧ (filename_of t1 r1 ".png" = filename_of t2 r2 ".bin" →
       t1 = t2 ∧ r1 = r2 ∧ ".png" = ".bin").
Proof.
  exact (generated_names_are_injective Mem_Intn_range ".png" ".bin"
           (start Mem.empty) (start Mem.empty)).
Defined.

Lemma env_file_of_a_configured_host :
  os_IsNotExist (Stat ".env" MemFS.configured).1 = false
  ∧ serve createEnvFileIfNotExist (mkHost MemFS.configured []) =
      (Done (),
       mkState (mkHost MemFS.configured [".env file already exists."])
         [] [] []).
Proof.
  split; [reflexivity|].
  exact (env_file_left_alone (mkHost MemFS.configured []) eq_refl).
Defined.

Lemma env_file_of_a_sealed_host :
  serve createEnvFileIfNotExist (mkHost MemFS.sealed []) =
    (Fatal "Failed to create .env file: open .env: read-only file system",
     mkState (mkHost MemFS.sealed []) [] []
       ["Failed to create .env file: open .env: read-only file system"]).
Proof.
  exact (env_file_write_failure_is_fatal (mkHost MemFS.sealed [])
           MemFS.sealed MemFS.sealed MemFS.ENOENT MemFS.EROFS
           eq_refl eq_refl eq_refl).
Defined.

Lemma env_file_of_a_blank_host :
  let first := serve createEnvFileIfNotExist (mkHost MemFS.blank []) in
  let second := serve createEnvFileIfNotExist (world first.2) in
  second.1 = Done ()
  ∧ fs (world second.2) = (Stat ".env" (fs (world first.2))).2
  ∧ stdout (world second.2)
    = stdout (world first.2) ++ [".env file already exists."].
Proof.
  apply (env_file_created_once MemFS_stat_again MemFS_written_is_there
           (mkHost MemFS.blank [])).
  reflexivity.
Defined.
